(** * The chi^2 test registry of [src/python/core/warp/distr.py]

    A shallow embedding of the module [distr.py]: the two settings
    templates, the [DISTRIBUTIONS] table, the lambdas that appear in the
    table, and the two hierarchical-warp builders [LinearWarp2D0Test] and
    [LinearWarp2D2Test].

    Python objects that can be mutated (dicts and lists) live in a store
    and are referred to by location, so that two names for one object are
    visible as such.  Executing the module is a computation in a state and
    exception monad over that store.  Scalars that are Python floats are
    idealised: literals of the settings table are kept as exact rationals,
    and the arithmetic inside the lambdas is done in the real numbers. *)

From Stdlib Require Import ZArith QArith Qreals Reals Lra Lia String Ascii List.
From stdpp Require Import gmap strings list fin_maps.

Import ListNotations.
Set Warnings "-register-all".
Local Open Scope string_scope.
Local Open Scope list_scope.

(** ** Python values and the object store *)

Module Py.

Abbreviation loc := positive.

(** Immutable values are kept inline; dicts and lists are references. *)
Inductive value : Type :=
| VInt (z : Z)
| VFloat (q : Q)
| VStr (s : string)
| VTuple (vs : list value)
| VRef (l : loc).

Inductive obj : Type :=
| ODict (d : gmap string value)
| OList (vs : list value).

Inductive exn : Type :=
| TypeError
| ValueError
| IndexError
| NameError
| RuntimeError (msg : string).

Inductive result (A : Type) : Type :=
| Ok (a : A)
| Raise (e : exn).
Arguments Ok {A} a.
Arguments Raise {A} e.

Record store : Type := mkStore {
  objects : gmap loc obj;
  fresh : loc
}.

Definition empty_store : store := {| objects := ∅; fresh := 1%positive |}.

Definition alloc (o : obj) (s : store) : loc * store :=
  (fresh s, {| objects := <[fresh s := o]> (objects s); fresh := Pos.succ (fresh s) |}).

(** [dict(base, **kwargs)]: a new dict holding the items of [base], then
    updated with the keyword arguments.  The copy is shallow: a reference
    stored in [base] is stored again, not followed. *)
Definition update_items (kw : list (string * value)) (d : gmap string value)
  : gmap string value :=
  fold_left (fun acc kv => <[fst kv := snd kv]> acc) kw d.

Definition dict_copy (base : loc) (kw : list (string * value)) (s : store)
  : result loc * store :=
  match objects s !! base with
  | Some (ODict d) =>
      let (l, s') := alloc (ODict (update_items kw d)) s in (Ok l, s')
  | _ => (Raise TypeError, s)
  end.

(** [d[k] = v] on the dict at [l]. *)
Definition dict_setitem (l : loc) (k : string) (v : value) (s : store) : result store :=
  match objects s !! l with
  | Some (ODict d) =>
      Ok {| objects := <[l := ODict (<[k := v]> d)]> (objects s); fresh := fresh s |}
  | _ => Raise TypeError
  end.

(** [d[k]] on the dict at [l]. *)
Definition dict_getitem (l : loc) (k : string) (s : store) : option value :=
  match objects s !! l with
  | Some (ODict d) => d !! k
  | _ => None
  end.

(** [xs.append(v)] on the list at [l]. *)
Definition list_append (l : loc) (v : value) (s : store) : result store :=
  match objects s !! l with
  | Some (OList vs) =>
      Ok {| objects := <[l := OList (vs ++ [v])]> (objects s); fresh := fresh s |}
  | _ => Raise TypeError
  end.

(** What a reader sees through a value: references are followed, so the
    result is a tree without sharing.  [fuel] bounds the nesting depth. *)
Inductive tree : Type :=
| TInt (z : Z)
| TFloat (q : Q)
| TStr (s : string)
| TTuple (ts : list tree)
| TList (ts : list tree)
| TDict (kts : list (string * tree)).

Definition all_some {A} (xs : list (option A)) : option (list A) :=
  foldr (fun x acc => match x, acc with
                      | Some a, Some l => Some (a :: l)
                      | _, _ => None
                      end) (Some []) xs.

Fixpoint observe (fuel : nat) (h : gmap loc obj) (v : value) : option tree :=
  match fuel with
  | O => None
  | S n =>
      match v with
      | VInt z => Some (TInt z)
      | VFloat q => Some (TFloat q)
      | VStr s => Some (TStr s)
      | VTuple vs => TTuple <$> all_some (map (observe n h) vs)
      | VRef l =>
          match h !! l with
          | Some (OList vs) => TList <$> all_some (map (observe n h) vs)
          | Some (ODict d) =>
              TDict <$> all_some (map (fun kv => pair (fst kv) <$> observe n h (snd kv))
                                      (map_to_list d))
          | None => None
          end
      end
  end.

(** The locations a reader goes through while observing a value. *)
Fixpoint reach (fuel : nat) (h : gmap loc obj) (v : value) : gset loc :=
  match fuel with
  | O => ∅
  | S n =>
      match v with
      | VTuple vs => ⋃ (map (reach n h) vs)
      | VRef l =>
          {[ l ]} ∪
          match h !! l with
          | Some (OList vs) => ⋃ (map (reach n h) vs)
          | Some (ODict d) => ⋃ (map (fun kv => reach n h (snd kv)) (map_to_list d))
          | None => ∅
          end
      | _ => ∅
      end
  end.

End Py.

(** ** NumPy arrays *)

Module Np.

(** An n-dimensional array: its shape and its items by index. *)
Record ndarray (A : Type) : Type := mkArray {
  shape : list nat;
  item : list nat -> A
}.
Arguments mkArray {A} shape item.
Arguments shape {A} _.
Arguments item {A} _ _.

Definition ndim {A} (a : ndarray A) : nat := length (shape a).

(** [np.full(shape, v)] and [np.ones(n)]. *)
Definition full {A} (sh : list nat) (v : A) : ndarray A := mkArray sh (fun _ => v).
Definition ones (n : nat) : ndarray R := full [n] 1%R.

(** [a.shape[0]]: an IndexError on a 0-dimensional array. *)
Definition shape0 {A} (a : ndarray A) : Py.result nat :=
  match shape a with
  | n :: _ => Py.Ok n
  | [] => Py.Raise Py.IndexError
  end.

(** [a.squeeze()]: the axes of length one are removed. *)
Definition squeeze_shape (sh : list nat) : list nat :=
  filter (fun d => negb (d =? 1)%nat) sh.

Fixpoint unsqueeze_index (sh idx : list nat) : list nat :=
  match sh with
  | [] => []
  | d :: sh' =>
      if (d =? 1)%nat then 0%nat :: unsqueeze_index sh' idx
      else match idx with
           | i :: idx' => i :: unsqueeze_index sh' idx'
           | [] => 0%nat :: unsqueeze_index sh' []
           end
  end.

Definition squeeze {A} (a : ndarray A) : ndarray A :=
  mkArray (squeeze_shape (shape a)) (fun idx => item a (unsqueeze_index (shape a) idx)).

(** Broadcasting a value of shape [src] into a region of shape [tgt], as
    NumPy does for an assignment [t[...] = v]: the shapes are aligned at
    their last axis; a source axis must have the length of the target axis
    or length one; source axes beyond the target's must have length one.
    Both functions take the shapes reversed (last axis first). *)
Fixpoint broadcastable_rev (src tgt : list nat) : bool :=
  match src, tgt with
  | [], _ => true
  | s :: src', [] => (s =? 1)%nat && broadcastable_rev src' []
  | s :: src', t :: tgt' =>
      ((s =? t)%nat || (s =? 1)%nat) && broadcastable_rev src' tgt'
  end.

Fixpoint broadcast_index_rev (src idx : list nat) : list nat :=
  match src with
  | [] => []
  | s :: src' =>
      (if (s =? 1)%nat then 0%nat else hd 0%nat idx) :: broadcast_index_rev src' (tl idx)
  end.

Definition broadcastable (src tgt : list nat) : bool :=
  broadcastable_rev (rev src) (rev tgt).

Definition broadcast_index (src idx : list nat) : list nat :=
  rev (broadcast_index_rev (rev src) (rev idx)).

(** [t[i, j, :, :] = v] on a 4-dimensional [t]: a ValueError when [v]
    cannot be broadcast into the plane. *)
Definition set_plane {A} (t : ndarray A) (i j : nat) (v : ndarray A)
  : Py.result (ndarray A) :=
  if broadcastable (shape v) (skipn 2 (shape t)) then
    Py.Ok (mkArray (shape t)
             (fun idx =>
                match idx with
                | [i'; j'; y; x] =>
                    if ((i' =? i)%nat && (j' =? j)%nat)%bool
                    then item v (broadcast_index (shape v) [y; x])
                    else item t idx
                | _ => item t idx
                end))
  else Py.Raise Py.ValueError.

(** [np.tile(row, [n, 1])]: [n] copies of a row vector, stacked. *)
Definition tile_rows (row : list R) (n : nat) : ndarray R :=
  mkArray [n; length row] (fun idx => nth (nth 1 idx 0%nat) row 0%R).

End Np.

(** ** The data model of the registry *)

Import Py Np.

(** The three domains of [mitsuba.core.chi2]; [PlanarDomain()] without
    bounds is the unit disk. *)
Inductive domain : Type :=
| PlanarDomain (bounds : option (list (list Z)))
| SphericalDomain
| LineDomain (bounds : list Q).

Inductive MicrofacetDistribution : Type := EBeckmann | EGGX.

(** The functions of [mitsuba.core.warp] that the table refers to or that
    its lambdas call. *)
Inductive warp_fn : Type :=
| square_to_uniform_triangle | square_to_uniform_triangle_pdf
| square_to_tent | square_to_tent_pdf
| square_to_uniform_disk | square_to_uniform_disk_pdf
| square_to_uniform_disk_concentric | square_to_uniform_disk_concentric_pdf
| square_to_uniform_sphere | square_to_uniform_sphere_pdf
| square_to_uniform_hemisphere | square_to_uniform_hemisphere_pdf
| square_to_cosine_hemisphere | square_to_cosine_hemisphere_pdf
| square_to_uniform_cone | square_to_uniform_cone_pdf
| square_to_beckmann | square_to_beckmann_pdf
| square_to_von_mises_fisher | square_to_von_mises_fisher_pdf
| square_to_rough_fiber | square_to_rough_fiber_pdf.

(** The objects built by [Linear2D0(data)] and [Linear2D2(data, param_values)]. *)
Inductive distribution : Type :=
| Linear2D0 (data : ndarray Q)
| Linear2D2 (data : ndarray Q) (param_values : list (list Z)).

(** Function values of the table, first-order: a reference into the warp
    module, one of the lambdas written in the table, or a closure returned
    by a builder together with the object [d] it captured.  [call] below
    gives each its body. *)
Inductive callable : Type :=
| warp (f : warp_fn)
| uniform_square_sample | uniform_square_pdf
| uniform_cone_sample | uniform_cone_pdf
| beckmann_sample | beckmann_pdf
| rough_fiber_sample | rough_fiber_pdf
| sample_functor (d : distribution)
| pdf_functor (d : distribution).

(** Third component of an entry: a pair (sample, density), or an adapter
    object of [mitsuba.core.chi2] with its constructor arguments. *)
Inductive functions : Type :=
| Pair (sample density : callable)
| SpectrumAdapter (value : string)
| MicrofacetAdapter (md_type : MicrofacetDistribution) (alpha : Q) (sample_visible : bool)
| BSDFAdapter (bsdf_type extra : string) (wi : option (list Q))
| InteractiveMicrofacetBSDFAdapter (bsdf_type extra : string).

(** One tuple of the table.  The settings component is the reference it
    holds, not a copy of the dict. *)
Record entry : Type := mkEntry {
  name : string;
  domain_of : domain;
  funcs : functions;
  settings : loc
}.

(** Scene-description snippets are written here with apostrophes where the
    source has double quotes; [snippet] puts the double quotes back. *)
Fixpoint snippet (s : string) : string :=
  match s with
  | EmptyString => EmptyString
  | String c s' => String (if Ascii.eqb c "'"%char then "034"%char else c) (snippet s')
  end.

(** [np.pi], the binary64 number nearest to pi. *)
Definition np_pi : Q := 884279719003555 # 281474976710656.

(** ** Executing the module *)

(** The module's namespace (the three names that are assigned at top
    level) and the store. *)
Record module_state : Type := mkState {
  heap : store;
  DEFAULT_SETTINGS : option loc;
  DEFAULT_SETTINGS_3 : option loc;
  DISTRIBUTIONS : option (list entry)
}.

Definition initial_state : module_state :=
  {| heap := empty_store; DEFAULT_SETTINGS := None; DEFAULT_SETTINGS_3 := None;
     DISTRIBUTIONS := None |}.

(** State and exception monad: a raised exception keeps the state reached. *)
Definition M (A : Type) : Type := module_state -> result A * module_state.

Definition ret {A} (a : A) : M A := fun g => (Ok a, g).

Definition bind {A B} (m : M A) (k : A -> M B) : M B :=
  fun g => match m g with
           | (Ok a, g') => k a g'
           | (Raise e, g') => (Raise e, g')
           end.

Definition lift {A} (r : result A) : M A := fun g => (r, g).

Definition rbind {A B} (r : result A) (k : A -> result B) : result B :=
  match r with
  | Ok a => k a
  | Raise e => Raise e
  end.

Notation "x <- m ; k" := (bind m (fun x => k))
  (at level 20, m at level 100, k at level 200, only parsing).
Notation "m >> k" := (bind m (fun _ => k))
  (at level 20, k at level 200, only parsing).
Notation "x <~ r ; k" := (rbind r (fun x => k))
  (at level 20, r at level 100, k at level 200, only parsing).

Fixpoint sequence {A} (ms : list (M A)) : M (list A) :=
  match ms with
  | [] => ret []
  | m :: ms' => a <- m ; l <- sequence ms' ; ret (a :: l)
  end.

Definition with_heap {A} (f : store -> A * store) : M A :=
  fun g => let (a, s) := f (heap g) in
           (Ok a, {| heap := s; DEFAULT_SETTINGS := DEFAULT_SETTINGS g;
                     DEFAULT_SETTINGS_3 := DEFAULT_SETTINGS_3 g;
                     DISTRIBUTIONS := DISTRIBUTIONS g |}).

(** Expressions of the module. *)
Definition int (z : Z) : M value := ret (VInt z).
Definition float (q : Q) : M value := ret (VFloat q).
Definition str (s : string) : M value := ret (VStr s).

Definition tuple_lit (es : list (M value)) : M value :=
  vs <- sequence es ; ret (VTuple vs).

Definition list_lit (es : list (M value)) : M value :=
  vs <- sequence es ; l <- with_heap (alloc (OList vs)) ; ret (VRef l).

Fixpoint keywords (kw : list (string * M value)) : M (list (string * value)) :=
  match kw with
  | [] => ret []
  | (k, e) :: kw' => v <- e ; l <- keywords kw' ; ret ((k, v) :: l)
  end.

Definition dict_lit (items : list (string * M value)) : M loc :=
  kvs <- keywords items ; with_heap (alloc (ODict (update_items kvs ∅))).

Definition dict (base : M loc) (kw : list (string * M value)) : M loc :=
  b <- base ;
  kvs <- keywords kw ;
  r <- with_heap (dict_copy b kvs) ;
  lift r.

Definition load_name (field : module_state -> option loc) : M loc :=
  fun g => match field g with
           | Some l => (Ok l, g)
           | None => (Raise NameError, g)
           end.

Definition tup (nm : string) (d : domain) (f : M functions) (st : M loc) : M entry :=
  fs <- f ; l <- st ; ret (mkEntry nm d fs l).

Definition unit_square : domain := PlanarDomain (Some [[0; 1]; [0; 1]]%Z).

Definition assign_DEFAULT_SETTINGS (l : loc) : M unit :=
  fun g => (Ok tt, {| heap := heap g; DEFAULT_SETTINGS := Some l;
                      DEFAULT_SETTINGS_3 := DEFAULT_SETTINGS_3 g;
                      DISTRIBUTIONS := DISTRIBUTIONS g |}).

Definition assign_DEFAULT_SETTINGS_3 (l : loc) : M unit :=
  fun g => (Ok tt, {| heap := heap g; DEFAULT_SETTINGS := DEFAULT_SETTINGS g;
                      DEFAULT_SETTINGS_3 := Some l;
                      DISTRIBUTIONS := DISTRIBUTIONS g |}).

Definition assign_DISTRIBUTIONS (es : list entry) : M unit :=
  fun g => (Ok tt, {| heap := heap g; DEFAULT_SETTINGS := DEFAULT_SETTINGS g;
                      DEFAULT_SETTINGS_3 := DEFAULT_SETTINGS_3 g;
                      DISTRIBUTIONS := Some es |}).

Definition load_DISTRIBUTIONS : M (list entry) :=
  fun g => match DISTRIBUTIONS g with
           | Some es => (Ok es, g)
           | None => (Raise NameError, g)
           end.

(** A parameter of the settings: [(label, [min, max, default])]. *)
Definition parameter (label : string) (lo hi dflt : M value) : M value :=
  tuple_lit [str label; list_lit [lo; hi; dflt]].

(** The table of lines 51 to 262, one element per tuple, in order. *)
Definition table : list (M entry) :=
  let DS := load_name DEFAULT_SETTINGS in
  let DS3 := load_name DEFAULT_SETTINGS_3 in
  let incidence := [("parameters", list_lit [parameter "Angle of incidence" (int 0) (int 90) (int 30)])] in
  let angles :=
    [("parameters",
      list_lit [parameter "alpha_u" (int 0) (int 1) (float 0.2);
                parameter "alpha_v" (int 0) (int 1) (float 0.2);
                parameter "Theta" (int 0) (float np_pi) (int 0);
                parameter "Phi" (int 0) (float (2 * np_pi)) (int 0)])] in
  [ tup "Uniform square" unit_square
      (ret (Pair uniform_square_sample uniform_square_pdf)) DS;
    tup "Uniform triangle" unit_square
      (ret (Pair (warp square_to_uniform_triangle) (warp square_to_uniform_triangle_pdf)))
      (dict DS [("res", int 100)]);
    tup "Tent function" (PlanarDomain (Some [[-1; 1]; [-1; 1]]%Z))
      (ret (Pair (warp square_to_tent) (warp square_to_tent_pdf))) DS;
    tup "Uniform disk" (PlanarDomain None)
      (ret (Pair (warp square_to_uniform_disk) (warp square_to_uniform_disk_pdf))) DS;
    tup "Uniform disk (concentric)" (PlanarDomain None)
      (ret (Pair (warp square_to_uniform_disk_concentric)
                 (warp square_to_uniform_disk_concentric_pdf))) DS;
    tup "Uniform sphere" SphericalDomain
      (ret (Pair (warp square_to_uniform_sphere) (warp square_to_uniform_sphere_pdf))) DS;
    tup "Uniform hemisphere" SphericalDomain
      (ret (Pair (warp square_to_uniform_hemisphere) (warp square_to_uniform_hemisphere_pdf))) DS;
    tup "Cosine hemisphere" SphericalDomain
      (ret (Pair (warp square_to_cosine_hemisphere) (warp square_to_cosine_hemisphere_pdf))) DS;
    tup "Uniform cone" SphericalDomain
      (ret (Pair uniform_cone_sample uniform_cone_pdf))
      (dict DS [("parameters",
                 list_lit [parameter "Cutoff angle" (float 1e-4) (int 180) (int 20)])]);
    tup "Beckmann distribution" SphericalDomain
      (ret (Pair beckmann_sample beckmann_pdf))
      (dict DS [("parameters",
                 list_lit [parameter "Roughness" (int 0) (int 1) (float 0.6)])]);
    tup "von Mises-Fisher distribution" SphericalDomain
      (ret (Pair (warp square_to_von_mises_fisher) (warp square_to_von_mises_fisher_pdf)))
      (dict DS [("parameters",
                 list_lit [parameter "Concentration" (int 0) (int 100) (int 10)])]);
    tup "Rough fiber distribution" SphericalDomain
      (ret (Pair rough_fiber_sample rough_fiber_pdf))
      (dict DS [("sample_dim", int 3);
                ("parameters",
                 list_lit [parameter "Concentration" (int 0) (int 500) (int 10);
                           parameter "Inclination" (int 0) (int 90) (int 20)])]);
    tup "Spectrum: test" (LineDomain [300.0; 700.0]%Q)
      (ret (SpectrumAdapter (snippet "<spectrum version='2.0.0' type='interpolated'>
        <float name='lambda_min' value='400'/>
        <float name='lambda_max' value='650'/>
        <string name='values' value='1, 5, 3, 6'/>
      </spectrum>")))
      (dict DS [("sample_dim", int 1)]);
    tup "Spectrum: d65" (LineDomain [360.0; 830.0]%Q)
      (ret (SpectrumAdapter (snippet "<spectrum version='2.0.0' type='d65'/>")))
      (dict DS [("sample_dim", int 1)]);
    tup "Spectrum: blackbody" (LineDomain [360.0; 830.0]%Q)
      (ret (SpectrumAdapter (snippet "<spectrum version='2.0.0' type='blackbody'>   <float name='temperature' value='%f'/></spectrum>")))
      (dict DS [("sample_dim", int 1);
                ("parameters",
                 list_lit [parameter "Temperature" (int 0) (int 8000) (int 3000)])]);
    tup "Microfact: Beckmann, all, 0.5" SphericalDomain
      (ret (MicrofacetAdapter EBeckmann 0.5 false)) DS;
    tup "Microfact: Beckmann, all, 0.1" SphericalDomain
      (ret (MicrofacetAdapter EBeckmann 0.1 false)) DS;
    tup "Microfact: Beckmann, vis, 0.5" SphericalDomain
      (ret (MicrofacetAdapter EBeckmann 0.5 true)) (dict DS incidence);
    tup "Microfact: Beckmann, vis, 0.1" SphericalDomain
      (ret (MicrofacetAdapter EBeckmann 0.1 true)) (dict DS incidence);
    tup "Microfact: GGX, all, 0.5" SphericalDomain
      (ret (MicrofacetAdapter EGGX 0.5 false)) DS;
    tup "Microfact: GGX, all, 0.1" SphericalDomain
      (ret (MicrofacetAdapter EGGX 0.1 false)) DS;
    tup "Microfact: GGX, vis, 0.5" SphericalDomain
      (ret (MicrofacetAdapter EGGX 0.5 true)) (dict DS incidence);
    tup "Microfact: GGX, vis, 0.1" SphericalDomain
      (ret (MicrofacetAdapter EGGX 0.1 true)) (dict DS incidence);
    tup "Diffuse BSDF" SphericalDomain
      (ret (BSDFAdapter "diffuse" EmptyString None)) DS3;
    tup "Rough conductor BSDF - smooth" SphericalDomain
      (ret (BSDFAdapter "roughconductor" (snippet "
        <float name='alpha' value='0.05'/>
     ") None)) DS3;
    tup "Rough conductor BSDF - rough" SphericalDomain
      (ret (BSDFAdapter "roughconductor" (snippet "
        <float name='alpha' value='0.25'/>
     ") None)) DS3;
    tup "Rough conductor BSDF - rough - alternative wi" SphericalDomain
      (ret (BSDFAdapter "roughconductor" (snippet "
        <float name='alpha' value='0.25'/>
     ")
              (Some [0.970942; 0; 0.239316]%Q))) DS3;
    tup "Rough conductor BSDF - interactive" SphericalDomain
      (ret (InteractiveMicrofacetBSDFAdapter "roughconductor" (snippet "
        <boolean name='sample_visible' value='false'/>
        <string name='distribution' value='beckmann'/>
    ")))
      (dict DS3 angles);
    tup "Rough conductor BSDF - vis - interactive" SphericalDomain
      (ret (InteractiveMicrofacetBSDFAdapter "roughconductor" (snippet "
        <boolean name='sample_visible' value='true'/>
        <string name='distribution' value='beckmann'/>
    ")))
      (dict DS3 angles);
    tup "Rough plastic BSDF - rough" SphericalDomain
      (ret (BSDFAdapter "roughplastic" (snippet "
        <float name='alpha' value='0.25'/>
        <spectrum name='specular_reflectance' value='0.4'/>
        <spectrum name='diffuse_reflectance' value='0.9'/>
     ") None)) DS3;
    tup "Rough plastic BSDF - rough - alternative wi" SphericalDomain
      (ret (BSDFAdapter "roughplastic" (snippet "
        <float name='alpha' value='0.25'/>
        <spectrum name='specular_reflectance' value='0.4'/>
        <spectrum name='diffuse_reflectance' value='0.9'/>
     ")
              (Some [0.48666426; 0.32444284; 0.81110711]%Q))) DS3;
    tup "Plastic BSDF" SphericalDomain
      (ret (BSDFAdapter "plastic" (snippet "
        <rgb name='specular_reflectance' value='1.0, 0.1, 0.1'/>
        <rgb name='diffuse_reflectance' value='0.5, 0.5, 1.0'/>
     ") None)) DS3;
    tup "Plastic BSDF - alternative wi" SphericalDomain
      (ret (BSDFAdapter "plastic" (snippet "
        <rgb name='specular_reflectance' value='1.0, 0.1, 0.1'/>
        <rgb name='diffuse_reflectance' value='0.5, 0.5, 1.0'/>
     ")
              (Some [0.48666426; 0.32444284; 0.81110711]%Q))) DS3 ].

(** ** The hierarchical-warp builders *)

(** What the file resolver and the bitmap decoder give for a path: the
    pixels as an array of shape (height, width, channels), or nothing when
    the file is missing or unreadable. *)
Definition resources : Type := string -> option (ndarray Q).

(** [np.array(Bitmap(fr.resolve(path)), dtype=np.float32)]. *)
Definition Bitmap (fs : resources) (path : string) : result (ndarray Q) :=
  match fs path with
  | Some a => Ok a
  | None => Raise (RuntimeError path)
  end.

Definition prefix : string := "resources/data/tests/warp/".

Definition LinearWarp2D0Test (fs : resources) : result (callable * callable) :=
  img0 <~ Bitmap fs (prefix ++ "small.png");
  let d := Linear2D0 (squeeze img0) in
  Ok (sample_functor d, pdf_functor d).

Definition LinearWarp2D2Test (fs : resources) : result (callable * callable) :=
  img0 <~ Bitmap fs (prefix ++ "img0.png");
  img1 <~ Bitmap fs (prefix ++ "img1.png");
  img2 <~ Bitmap fs (prefix ++ "img2.png");
  img3 <~ Bitmap fs (prefix ++ "img3.png");
  let tensor := full [2; 2; 512; 512]%nat 0%Q in
  tensor <~ set_plane tensor 0 0 (squeeze img0);
  tensor <~ set_plane tensor 0 1 (squeeze img1);
  tensor <~ set_plane tensor 1 0 (squeeze img2);
  tensor <~ set_plane tensor 1 1 (squeeze img3);
  let d := Linear2D2 tensor [[0; 1]; [0; 1]]%Z in
  Ok (sample_functor d, pdf_functor d).

Definition as_pair (r : result (callable * callable)) : M functions :=
  lift (p <~ r; Ok (Pair (fst p) (snd p))).

(** The two tuples of lines 308 to 321.  The builders do not touch the
    store: [b0] and [b2] stand for the calls [LinearWarp2D0Test()] and
    [LinearWarp2D2Test()], and each outcome is looked at where its call
    is written. *)
Definition hierarchical (b0 b2 : result (callable * callable)) : list (M entry) :=
  let DS := load_name DEFAULT_SETTINGS in
  [ tup "Hierarchical warp (small)" unit_square
      (as_pair b0) DS;
    tup "Hierarchical warp (4D, big)" unit_square
      (as_pair b2)
      (dict DS [("parameters",
                 list_lit [parameter "param0" (int 0) (int 1) (float 0.5);
                           parameter "param1" (int 0) (int 1) (float 0.005)])]) ].

(** The statements of the module, in order. *)
Definition statements (b0 b2 : result (callable * callable)) : M unit :=
  l <- dict_lit [("sample_dim", int 2); ("ires", int 10); ("res", int 101);
                 ("parameters", list_lit [])];
  assign_DEFAULT_SETTINGS l >>
  l3 <- dict_lit [("sample_dim", int 3); ("ires", int 10); ("res", int 101);
                  ("parameters", list_lit [])];
  assign_DEFAULT_SETTINGS_3 l3 >>
  es <- sequence table;
  assign_DISTRIBUTIONS es >>
  old <- load_DISTRIBUTIONS;
  more <- sequence (hierarchical b0 b2);
  assign_DISTRIBUTIONS (old ++ more).

Definition distr (fs : resources) : M unit :=
  statements (LinearWarp2D0Test fs) (LinearWarp2D2Test fs).

Definition exec_module (fs : resources) : result unit * module_state :=
  distr fs initial_state.

(** [from mitsuba.core.warp.distr import DISTRIBUTIONS]: the import fails
    with the exception that the module raised. *)
Definition import_DISTRIBUTIONS (fs : resources) : result (list entry) :=
  match exec_module fs with
  | (Ok _, g) => match DISTRIBUTIONS g with
                 | Some es => Ok es
                 | None => Raise NameError
                 end
  | (Raise e, _) => Raise e
  end.

(** The state the module leaves behind, and the table found in it. *)
Definition final (fs : resources) : module_state := snd (exec_module fs).

Definition registry (fs : resources) : list entry :=
  default [] (DISTRIBUTIONS (final fs)).

(** ** Reading the settings of an entry *)

Definition number (v : value) : option Q :=
  match v with
  | VInt z => Some (inject_Z z)
  | VFloat q => Some q
  | _ => None
  end.

Record parameter_decl : Type := mkParameter {
  label : string;
  pmin : Q;
  pmax : Q;
  pdefault : Q
}.

(** One element [(label, [min, max, default])] of [settings['parameters']]. *)
Definition read_parameter (h : gmap loc obj) (v : value) : option parameter_decl :=
  match v with
  | VTuple [VStr l; VRef r] =>
      match h !! r with
      | Some (OList [a; b; c]) =>
          match number a, number b, number c with
          | Some lo, Some hi, Some d => Some (mkParameter l lo hi d)
          | _, _, _ => None
          end
      | _ => None
      end
  | _ => None
  end.

Definition parameters_of (s : store) (e : entry) : option (list parameter_decl) :=
  match dict_getitem (settings e) "parameters" s with
  | Some (VRef p) =>
      match objects s !! p with
      | Some (OList vs) => all_some (map (read_parameter (objects s)) vs)
      | _ => None
      end
  | _ => None
  end.

Definition labels_of (s : store) (e : entry) : option (list string) :=
  option_map (map label) (parameters_of s e).

Definition sample_dim_of (s : store) (e : entry) : option Z :=
  match dict_getitem (settings e) "sample_dim" s with
  | Some (VInt z) => Some z
  | _ => None
  end.

(** What is seen through a settings reference: the dict with everything
    below it, down to the numbers of the ranges (five levels). *)
Definition look (s : store) (l : loc) : option tree := observe 5 (objects s) (VRef l).

(** ** Resources used in examples *)

Definition image (h w c : nat) (v : Q) : ndarray Q := full [h; w; c] v.

(** Nothing can be loaded. *)
Definition no_resources : resources := fun _ => None.

(** All five images are there; the four conditioned ones are 512 x 512
    with one channel. *)
Definition sample_resources : resources :=
  fun p =>
    if String.eqb p (prefix ++ "small.png") then Some (image 16 16 1 1)
    else if String.eqb p (prefix ++ "img0.png") then Some (image 512 512 1 1)
    else if String.eqb p (prefix ++ "img1.png") then Some (image 512 512 1 2)
    else if String.eqb p (prefix ++ "img2.png") then Some (image 512 512 1 3)
    else if String.eqb p (prefix ++ "img3.png") then Some (image 512 512 1 4)
    else None.

(** As [sample_resources], but [img0.png] is missing. *)
Definition resources_without_img0 : resources :=
  fun p => if String.eqb p (prefix ++ "img0.png") then None else sample_resources p.

(** As [sample_resources], but [img3.png] is one pixel high. *)
Definition resources_flat_img3 : resources :=
  fun p => if String.eqb p (prefix ++ "img3.png") then Some (image 1 512 1 4)
           else sample_resources p.

(** As [sample_resources], but all four conditioned images are 256 x 256. *)
Definition resources_256 : resources :=
  fun p => if String.eqb p (prefix ++ "small.png") then Some (image 16 16 1 1)
           else Some (image 256 256 1 1).

(** ** Calling the functions of the table *)

Local Open Scope R_scope.

(** Arguments passed to the bound functions: an array or a scalar. *)
Inductive pyarg : Type :=
| Arr (a : ndarray R)
| Num (r : R).

Inductive kind : Type := KArr | KNum.

Definition kind_of (a : pyarg) : kind :=
  match a with
  | Arr _ => KArr
  | Num _ => KNum
  end.

Definition kind_eqb (a b : kind) : bool :=
  match a, b with
  | KArr, KArr | KNum, KNum => true
  | _, _ => false
  end.

Fixpoint kinds_eqb (l1 l2 : list kind) : bool :=
  match l1, l2 with
  | [], [] => true
  | a :: l1', b :: l2' => kind_eqb a b && kinds_eqb l1' l2'
  | _, _ => false
  end.

(** Modelled from the spec: the signatures of the functions of
    [mitsuba.core.warp], which are bound from C++ and are not part of
    [distr.py].  The spec requires the extra positional arguments of an
    entry's functions to match its declared parameters, so a function put
    in the table as it is takes the sample (or the point) alone when its
    entry declares no parameter, and one more scalar for the von
    Mises-Fisher entry.  For the functions that the lambdas call, the
    signature is the one of the call in [distr.py]. *)
Definition warp_signature (f : warp_fn) : list kind :=
  match f with
  | square_to_uniform_cone | square_to_uniform_cone_pdf
  | square_to_beckmann | square_to_beckmann_pdf
  | square_to_von_mises_fisher | square_to_von_mises_fisher_pdf => [KArr; KNum]
  | square_to_rough_fiber | square_to_rough_fiber_pdf => [KArr; KArr; KArr; KNum]
  | _ => [KArr]
  end.

(** What lies outside [distr.py]: the values computed by the warp
    functions, and the [sample] and [eval] methods of the objects built by
    [Linear2D0] and [Linear2D2]; [sample] returns a pair. *)
Class Externals : Type := {
  warp_eval : warp_fn -> list pyarg -> ndarray R;
  dist_sample : distribution -> ndarray R -> list R -> result (ndarray R * ndarray R);
  dist_eval : distribution -> ndarray R -> list R -> result (ndarray R)
}.

Section Calls.

Context `{E : Externals}.

(** A call into the warp module: a TypeError unless the arguments fit the
    signature. *)
Definition warp_call (f : warp_fn) (args : list pyarg) : result (ndarray R) :=
  if kinds_eqb (map kind_of args) (warp_signature f)
  then Ok (warp_eval f args)
  else Raise TypeError.

Definition deg2rad (value : R) : R := value * PI / 180.

(** [c(x, *args)].  A lambda called with the wrong number of arguments
    raises a TypeError. *)
Definition call (c : callable) (x : ndarray R) (args : list R) : result (ndarray R) :=
  match c with
  | warp f => warp_call f (Arr x :: map Num args)
  | uniform_square_sample =>
      match args with
      | [] => Ok x
      | _ => Raise TypeError
      end
  | uniform_square_pdf =>
      match args with
      | [] => n <~ shape0 x; Ok (ones n)
      | _ => Raise TypeError
      end
  | uniform_cone_sample =>
      match args with
      | [angle] => warp_call square_to_uniform_cone [Arr x; Num (cos (deg2rad angle))]
      | _ => Raise TypeError
      end
  | uniform_cone_pdf =>
      match args with
      | [angle] => warp_call square_to_uniform_cone_pdf [Arr x; Num (cos (deg2rad angle))]
      | _ => Raise TypeError
      end
  | beckmann_sample =>
      match args with
      | [value] =>
          warp_call square_to_beckmann
            [Arr x; Num (exp (ln 0.05 * (1 - value) + ln 1 * value))]
      | _ => Raise TypeError
      end
  | beckmann_pdf =>
      match args with
      | [value] =>
          warp_call square_to_beckmann_pdf
            [Arr x; Num (exp (ln 0.05 * (1 - value) + ln 1 * value))]
      | _ => Raise TypeError
      end
  | rough_fiber_sample =>
      match args with
      | [kappa; incl] =>
          n <~ shape0 x;
          let wi := tile_rows [sin (deg2rad incl); 0; cos (deg2rad incl)] n in
          m <~ shape0 x;
          let tangent := tile_rows [1; 0; 0] m in
          warp_call square_to_rough_fiber [Arr x; Arr wi; Arr tangent; Num kappa]
      | _ => Raise TypeError
      end
  | rough_fiber_pdf =>
      match args with
      | [kappa; incl] =>
          n <~ shape0 x;
          let wi := tile_rows [sin (deg2rad incl); 0; cos (deg2rad incl)] n in
          m <~ shape0 x;
          let tangent := tile_rows [1; 0; 0] m in
          warp_call square_to_rough_fiber_pdf [Arr x; Arr wi; Arr tangent; Num kappa]
      | _ => Raise TypeError
      end
  | sample_functor d => r <~ dist_sample d x args; Ok (fst r)
  | pdf_functor d => dist_eval d x args
  end.

End Calls.

(** Functions written in the table itself, as opposed to the closures
    that the builders return. *)
Definition directly_given (c : callable) : bool :=
  match c with
  | sample_functor _ | pdf_functor _ => false
  | _ => true
  end.

(** An instance for running examples: a warp function hands back its
    first array argument, and a distribution object samples the input
    itself with density one. *)
Definition first_array (args : list pyarg) : ndarray R :=
  match args with
  | Arr a :: _ => a
  | _ => ones 0
  end.

Definition echo : Externals :=
  {| warp_eval := fun _ args => first_array args;
     dist_sample := fun _ x _ => Ok (x, ones (hd 0%nat (shape x)));
     dist_eval := fun _ x _ => Ok (ones (hd 0%nat (shape x))) |}.

(** An array of points: [rows] rows of two coordinates, all equal to [c]. *)
Definition points (rows : nat) (c : R) : ndarray R := full [rows; 2%nat] c.

Local Close Scope R_scope.

(** ** The statements checked on the table *)

(** The default of a parameter lies in its range. *)
Definition in_range (p : parameter_decl) : Prop :=
  (pmin p <= pdefault p)%Q /\ (pdefault p <= pmax p)%Q.

Definition in_range_b (p : parameter_decl) : bool :=
  Qle_bool (pmin p) (pdefault p) && Qle_bool (pdefault p) (pmax p).

Definition defaults_in_range (s : store) (e : entry) : Prop :=
  exists ps, parameters_of s e = Some ps /\ Forall in_range ps.

Definition defaults_in_range_b (s : store) (e : entry) : bool :=
  match parameters_of s e with
  | Some ps => forallb in_range_b ps
  | None => false
  end.

(** The adapters that sample a full direction from a three-dimensional
    input. *)
Definition bsdf_adapter (f : functions) : bool :=
  match f with
  | BSDFAdapter _ _ _ | InteractiveMicrofacetBSDFAdapter _ _ => true
  | _ => false
  end.

(** The domain of an entry agrees with the [sample_dim] of its settings. *)
Definition dimension_consistent (s : store) (e : entry) : Prop :=
  match domain_of e with
  | LineDomain _ => sample_dim_of s e = Some 1%Z
  | PlanarDomain _ => sample_dim_of s e = Some 2%Z
  | SphericalDomain =>
      if bsdf_adapter (funcs e) then sample_dim_of s e = Some 3%Z
      else sample_dim_of s e = Some 2%Z \/ sample_dim_of s e = Some 3%Z
  end.

Definition opt_Z_eqb (o : option Z) (z : Z) : bool :=
  match o with
  | Some y => (y =? z)%Z
  | None => false
  end.

Definition dimension_consistent_b (s : store) (e : entry) : bool :=
  match domain_of e with
  | LineDomain _ => opt_Z_eqb (sample_dim_of s e) 1
  | PlanarDomain _ => opt_Z_eqb (sample_dim_of s e) 2
  | SphericalDomain =>
      if bsdf_adapter (funcs e) then opt_Z_eqb (sample_dim_of s e) 3
      else opt_Z_eqb (sample_dim_of s e) 2 || opt_Z_eqb (sample_dim_of s e) 3
  end.

(** Mutations made through a settings reference [l]: an item of the dict
    is assigned, or a value is appended to its ['parameters'] list. *)
Definition reassigned (s : store) (l : loc) (s' : store) : Prop :=
  exists k v, dict_setitem l k v s = Ok s'.

Definition appended (s : store) (l : loc) (s' : store) : Prop :=
  exists p v, dict_getitem l "parameters" s = Some (VRef p) /\ list_append p v s = Ok s'.

Definition is_template (g : module_state) (l : loc) : Prop :=
  DEFAULT_SETTINGS g = Some l \/ DEFAULT_SETTINGS_3 g = Some l.

(** The mutation that led from the heap of [g] to [s'] is not seen
    through [l]. *)
Definition unseen (g : module_state) (s' : store) (l : loc) : Prop :=
  look s' l = look (heap g) l.

Definition unseen_elsewhere (g : module_state) (es : list entry) (i : nat) (s' : store) : Prop :=
  (forall j ej, es !! j = Some ej -> j <> i -> unseen g s' (settings ej)) /\
  (forall t, is_template g t -> unseen g s' t).

(** Isolation as the specification words it: whatever is done through
    the settings of one entry is seen through no other entry and through
    no template. *)
Definition settings_isolated (g : module_state) (es : list entry) : Prop :=
  forall i ei s',
    es !! i = Some ei ->
    reassigned (heap g) (settings ei) s' \/ appended (heap g) (settings ei) s' ->
    unseen_elsewhere g es i s'.

(** The settings of an entry are a dict of their own, not a template. *)
Definition own_dict (g : module_state) (e : entry) : Prop :=
  ~ is_template g (settings e).

(** The ['parameters'] list of an entry is not the list of a template. *)
Definition own_parameters (g : module_state) (e : entry) : Prop :=
  forall t, is_template g t ->
            dict_getitem (settings e) "parameters" (heap g)
            <> dict_getitem t "parameters" (heap g).

(** The dict of an entry has the keys of a template and differs from it
    at most in the three fields that the table overrides. *)
Definition overridable : list string := ["sample_dim"; "res"; "parameters"].

Definition derived (g : module_state) (e : entry) : Prop :=
  exists t dt d,
    is_template g t /\
    objects (heap g) !! t = Some (ODict dt) /\
    objects (heap g) !! settings e = Some (ODict d) /\
    dom d = dom dt /\
    forall k, k ∉ overridable -> d !! k = dt !! k.

Definition loc_of (o : option loc) : list loc :=
  match o with
  | Some l => [l]
  | None => []
  end.

Definition templates (g : module_state) : list loc :=
  loc_of (DEFAULT_SETTINGS g) ++ loc_of (DEFAULT_SETTINGS_3 g).

Definition is_template_b (g : module_state) (l : loc) : bool :=
  existsb (Pos.eqb l) (templates g).

(** [l] is not met while looking through [root]. *)
Definition apart (g : module_state) (l root : loc) : bool :=
  bool_decide (l ∉ reach 5 (objects (heap g)) (VRef root)).

Definition apart_from_others (g : module_state) (es : list entry) (i : nat) (l : loc) : bool :=
  forallb (fun j => (j =? i)%nat ||
                    match es !! j with
                    | Some ej => apart g l (settings ej)
                    | None => true
                    end) (seq 0 (length es))
  && forallb (apart g l) (templates g).

Definition own_dicts_apart (g : module_state) (es : list entry) : bool :=
  forallb (fun i => match es !! i with
                    | Some ei => is_template_b g (settings ei)
                                 || apart_from_others g es i (settings ei)
                    | None => true
                    end) (seq 0 (length es)).

Definition parameters_ref (g : module_state) (l : loc) : option loc :=
  match dict_getitem l "parameters" (heap g) with
  | Some (VRef p) => Some p
  | _ => None
  end.

Definition own_parameters_apart (g : module_state) (es : list entry) : bool :=
  forallb (fun i => match es !! i with
                    | Some ei =>
                        match parameters_ref g (settings ei) with
                        | Some p =>
                            existsb (fun t => match parameters_ref g t with
                                              | Some q => Pos.eqb p q
                                              | None => false
                                              end) (templates g)
                            || apart_from_others g es i p
                        | None => false
                        end
                    | None => true
                    end) (seq 0 (length es)).

(** Failure isolation as the specification words it: when the builder
    of one hierarchical entry fails, every other entry of the full table
    is registered all the same. *)
Definition all_names : list string := map name (registry sample_resources).

Definition others_registered (fs : resources) (failed : string) : Prop :=
  forall n, n ∈ all_names -> n <> failed -> n ∈ map name (registry fs).

Definition failure_isolated : Prop :=
  forall fs,
    (forall e, LinearWarp2D0Test fs = Raise e ->
               others_registered fs "Hierarchical warp (small)") /\
    (forall e, LinearWarp2D2Test fs = Raise e ->
               others_registered fs "Hierarchical warp (4D, big)").

(** Row [i] of an array of points lies outside the rectangle [0,1] x [0,1]. *)
Definition outside_unit_square (x : ndarray R) (i : nat) : Prop :=
  exists rows, shape x = [rows; 2%nat] /\ (i < rows)%nat /\
    ~ ((0 <= item x [i; 0%nat] <= 1)%R /\ (0 <= item x [i; 1%nat] <= 1)%R).

(** The density of 'Uniform square' as the specification words it: zero
    outside the rectangle. *)
Definition zero_outside_support : Prop :=
  forall (E : Externals) (x : ndarray R) (i : nat),
    outside_unit_square x i ->
    exists y, call uniform_square_pdf x [] = Ok y /\ item y [i] = 0%R.

(** The four images of the conditioned builder. *)
Definition conditioned_paths : list string :=
  [prefix ++ "img0.png"; prefix ++ "img1.png"; prefix ++ "img2.png";
   prefix ++ "img3.png"]%string.

Definition plane : list nat := [512; 512]%nat.

(** The parameter grid handed to [Linear2D2]. *)
Definition grid : list (list Z) := [[0; 1]; [0; 1]]%Z.

(** An image, squeezed, can be written into a 512 x 512 plane. *)
Definition fits (img : ndarray Q) : bool :=
  broadcastable (shape (squeeze img)) plane.

(** What is written at row [y], column [x] of a plane for [img]. *)
Definition plane_item (img : ndarray Q) (y x : nat) : Q :=
  item (squeeze img) (broadcast_index (shape (squeeze img)) [y; x]).

(** Images of unequal dimensions are refused, as the specification words it. *)
Definition mismatch_is_fatal : Prop :=
  forall fs i0 i1 i2 i3,
    map fs conditioned_paths = [Some i0; Some i1; Some i2; Some i3] ->
    ~ (shape i0 = shape i1 /\ shape i1 = shape i2 /\ shape i2 = shape i3) ->
    exists e, LinearWarp2D2Test fs = Raise e.

(** ** Tests on the state the module leaves behind *)

Definition table_of (g : module_state) : list entry := default [] (DISTRIBUTIONS g).

Definition names_distinct_b (g : module_state) : bool :=
  bool_decide (NoDup (map name (table_of g))).

Definition ranges_b (g : module_state) : bool :=
  forallb (defaults_in_range_b (heap g)) (table_of g).

Definition dimensions_b (g : module_state) : bool :=
  forallb (dimension_consistent_b (heap g)) (table_of g).

Definition own_dicts_b (g : module_state) : bool := own_dicts_apart g (table_of g).

Definition own_parameters_b (g : module_state) : bool := own_parameters_apart g (table_of g).

(** Equality of two looked-up items, decided for what the templates hold
    outside the overridable fields: integers, strings and references. *)
Definition same_item (a b : option value) : bool :=
  match a, b with
  | Some (VInt x), Some (VInt y) => (x =? y)%Z
  | Some (VStr x), Some (VStr y) => String.eqb x y
  | Some (VRef x), Some (VRef y) => Pos.eqb x y
  | None, None => true
  | _, _ => false
  end.

Definition derived_from (g : module_state) (e : entry) (t : loc) : bool :=
  match objects (heap g) !! t, objects (heap g) !! settings e with
  | Some (ODict dt), Some (ODict d) =>
      bool_decide (dom d = dom dt)
      && forallb (fun k => bool_decide (k ∈ overridable) || same_item (d !! k) (dt !! k))
                 (elements (dom d))
  | _, _ => false
  end.

Definition derived_b (g : module_state) : bool :=
  forallb (fun e => existsb (derived_from g e) (templates g)) (table_of g).

(** The number of extra positional arguments that a function of the
    table takes after its first one; the closures of the builders take any
    number ([*args]), and a warp function whose further arguments are not
    all scalars cannot be called with scalars. *)
Definition is_scalar (k : kind) : bool :=
  match k with
  | KNum => true
  | KArr => false
  end.

Definition extra_arguments (c : callable) : option nat :=
  match c with
  | warp f =>
      match warp_signature f with
      | KArr :: rest => if forallb is_scalar rest then Some (length rest) else None
      | _ => None
      end
  | uniform_square_sample | uniform_square_pdf => Some 0%nat
  | uniform_cone_sample | uniform_cone_pdf
  | beckmann_sample | beckmann_pdf => Some 1%nat
  | rough_fiber_sample | rough_fiber_pdf => Some 2%nat
  | sample_functor _ | pdf_functor _ => None
  end.

Definition takes (c : callable) (n : nat) : bool :=
  match extra_arguments c with
  | Some m => (m =? n)%nat
  | None => false
  end.

Definition arity_consistent_b (s : store) (e : entry) : bool :=
  match funcs e with
  | Pair sample density =>
      if directly_given sample && directly_given density
      then match parameters_of s e with
           | Some ps => takes sample (length ps) && takes density (length ps)
           | None => false
           end
      else true
  | _ => true
  end.

Definition arities_b (g : module_state) : bool :=
  forallb (arity_consistent_b (heap g)) (table_of g).

Definition is_ok {A} (r : result A) : bool :=
  match r with
  | Ok _ => true
  | Raise _ => false
  end.

(** What is seen through [l] once a mutation has gone through. *)
Definition look_after (r : result store) (l : loc) : option tree :=
  match r with
  | Ok s' => look s' l
  | Raise _ => None
  end.

(** ** Further statements on the builders and the table *)

Definition small_path : string := (prefix ++ "small.png")%string.

(** All that the module needs from the resources: [small.png] can be
    loaded, and so can the four conditioned images, each of which fits a
    plane. *)
Definition loadable (fs : resources) : bool :=
  match fs small_path, map fs conditioned_paths with
  | Some _, [Some i0; Some i1; Some i2; Some i3] => forallb fits [i0; i1; i2; i3]
  | _, _ => false
  end.

(** The shapes that a squeezed image may have to fit a plane. *)
Definition plane_shapes : list (list nat) := [[]; [512]; [512; 512]]%nat.

(** ** Further statements on the table *)

(** A template as its literal defines it: four items, the given
    [sample_dim], [ires] 10, [res] 101 and an empty list of parameters. *)
Definition template_holds (s : store) (t : loc) (dim : Z) : Prop :=
  exists d p,
    objects s !! t = Some (ODict d) /\ size d = 4%nat /\
    d !! "sample_dim" = Some (VInt dim) /\ d !! "ires" = Some (VInt 10) /\
    d !! "res" = Some (VInt 101) /\ d !! "parameters" = Some (VRef p) /\
    objects s !! p = Some (OList []).

Definition is_empty_list (s : store) (v : option value) : bool :=
  match v with
  | Some (VRef p) =>
      match objects s !! p with
      | Some (OList []) => true
      | _ => false
      end
  | _ => false
  end.

Definition template_holds_b (s : store) (t : loc) (dim : Z) : bool :=
  match objects s !! t with
  | Some (ODict d) =>
      (size d =? 4)%nat
      && same_item (d !! "sample_dim") (Some (VInt dim))
      && same_item (d !! "ires") (Some (VInt 10))
      && same_item (d !! "res") (Some (VInt 101))
      && is_empty_list s (d !! "parameters")
  | _ => false
  end.

Definition opt_loc_eqb (a b : option loc) : bool :=
  match a, b with
  | Some x, Some y => Pos.eqb x y
  | None, None => true
  | _, _ => false
  end.

Definition templates_intact_b (g : module_state) : bool :=
  match DEFAULT_SETTINGS g, DEFAULT_SETTINGS_3 g with
  | Some t, Some t3 =>
      negb (Pos.eqb t t3)
      && template_holds_b (heap g) t 2 && template_holds_b (heap g) t3 3
      && negb (opt_loc_eqb (parameters_ref g t) (parameters_ref g t3))
  | _, _ => false
  end.

(** The ['parameters'] list of an entry is the very list of a template. *)
Definition parameters_shared (g : module_state) (e : entry) : Prop :=
  exists t p,
    is_template g t /\ parameters_ref g t = Some p /\
    parameters_ref g (settings e) = Some p.

Definition parameters_shared_b (g : module_state) (e : entry) : bool :=
  match parameters_ref g (settings e) with
  | Some p => existsb (fun t => opt_loc_eqb (parameters_ref g t) (Some p)) (templates g)
  | None => false
  end.

Definition declares_none_b (s : store) (e : entry) : bool :=
  match parameters_of s e with
  | Some [] => true
  | _ => false
  end.

Definition sharing_b (g : module_state) : bool :=
  forallb (fun e => Bool.eqb (parameters_shared_b g e) (declares_none_b (heap g) e))
          (table_of g).

(** The parameters of an entry can be told apart by their labels, and
    each has a range that is not empty. *)
Definition well_declared (s : store) (e : entry) : Prop :=
  exists ps, parameters_of s e = Some ps /\
             NoDup (map label ps) /\
             Forall (fun p => (pmin p < pmax p)%Q) ps.

Definition well_declared_b (s : store) (e : entry) : bool :=
  match parameters_of s e with
  | Some ps =>
      bool_decide (NoDup (map label ps))
      && forallb (fun p => negb (Qle_bool (pmax p) (pmin p))) ps
  | None => false
  end.

Definition declarations_b (g : module_state) : bool :=
  forallb (well_declared_b (heap g)) (table_of g).

(** The resolutions an entry is tested at. *)
Definition expected_res (e : entry) : Z :=
  if String.eqb (name e) "Uniform triangle" then 100%Z else 101%Z.

Definition resolutions (s : store) (e : entry) : Prop :=
  dict_getitem (settings e) "ires" s = Some (VInt 10) /\
  dict_getitem (settings e) "res" s = Some (VInt (expected_res e)).

Definition resolutions_b (g : module_state) : bool :=
  forallb (fun e =>
             same_item (dict_getitem (settings e) "ires" (heap g)) (Some (VInt 10))
             && same_item (dict_getitem (settings e) "res" (heap g))
                          (Some (VInt (expected_res e))))
          (table_of g).

(** The bounds given to a domain: none (the unit disk) or a rectangle of
    two intervals for a planar domain, one interval for a line domain;
    every interval has its lower end below its upper end. *)
Definition domain_well_formed (d : domain) : Prop :=
  match d with
  | PlanarDomain None => True
  | PlanarDomain (Some [[a; b]; [c; d']]) => (a < b)%Z /\ (c < d')%Z
  | PlanarDomain (Some _) => False
  | SphericalDomain => True
  | LineDomain [a; b] => (a < b)%Q
  | LineDomain _ => False
  end.

Definition domain_well_formed_b (d : domain) : bool :=
  match d with
  | PlanarDomain None => true
  | PlanarDomain (Some [[a; b]; [c; d']]) => (a <? b)%Z && (c <? d')%Z
  | PlanarDomain (Some _) => false
  | SphericalDomain => true
  | LineDomain [a; b] => negb (Qle_bool b a)
  | LineDomain _ => false
  end.

Definition on_disk (e : entry) : bool :=
  String.eqb (name e) "Uniform disk" || String.eqb (name e) "Uniform disk (concentric)".

Definition is_disk (d : domain) : bool :=
  match d with
  | PlanarDomain None => true
  | _ => false
  end.

Definition domains_b (g : module_state) : bool :=
  forallb (fun e => domain_well_formed_b (domain_of e)
                    && Bool.eqb (is_disk (domain_of e)) (on_disk e))
          (table_of g).

(** The fixed incident direction of a BSDF adapter, when one is given. *)
Definition wi_of (f : functions) : option (list Q) :=
  match f with
  | BSDFAdapter _ _ wi => wi
  | _ => None
  end.

(** A direction of length one, up to the six digits it is written with,
    on the upper side of the surface. *)
Definition unit_upward (wi : list Q) : Prop :=
  match wi with
  | [x; y; z] =>
      (1 - 1e-6 < x * x + y * y + z * z)%Q /\ (x * x + y * y + z * z < 1 + 1e-6)%Q /\
      (0 < z)%Q
  | _ => False
  end.

Definition unit_upward_b (wi : list Q) : bool :=
  match wi with
  | [x; y; z] =>
      negb (Qle_bool (x * x + y * y + z * z) (1 - 1e-6))
      && negb (Qle_bool (1 + 1e-6) (x * x + y * y + z * z))
      && negb (Qle_bool z 0)
  | _ => false
  end.

Definition directions_b (g : module_state) : bool :=
  forallb (fun e => match wi_of (funcs e) with
                    | Some wi => unit_upward_b wi
                    | None => true
                    end) (table_of g).

(** The number of [%] conversions in a format string. *)
Fixpoint conversions (s : string) : nat :=
  match s with
  | EmptyString => 0%nat
  | String c s' => ((if Ascii.eqb c "%"%char then 1 else 0) + conversions s')%nat
  end.

Definition spectrum_of (f : functions) : option string :=
  match f with
  | SpectrumAdapter value => Some value
  | _ => None
  end.

Definition placeholders_b (g : module_state) : bool :=
  forallb (fun e => match spectrum_of (funcs e) with
                    | Some value =>
                        match parameters_of (heap g) e with
                        | Some ps => (conversions value =? length ps)%nat
                        | None => false
                        end
                    | None => true
                    end) (table_of g).

(** ** Further statements on the lambdas *)

(** An array without axes, holding one number. *)
Definition scalar_array (v : R) : ndarray R := full [] v.

(** ** Further statements: holders of a template, companions, the grid *)

(** An entry reads like the template [t]: the same [sample_dim], [res]
    101, no parameter. *)
Definition reads_like_b (g : module_state) (e : entry) (t : loc) : bool :=
  match dict_getitem t "sample_dim" (heap g) with
  | Some (VInt dim) =>
      opt_Z_eqb (sample_dim_of (heap g) e) dim
      && same_item (dict_getitem (settings e) "res" (heap g)) (Some (VInt 101))
      && declares_none_b (heap g) e
  | _ => false
  end.

Definition holders_b (g : module_state) : bool :=
  forallb (fun e =>
             forallb (fun t => implb (reads_like_b g e t) (Pos.eqb (settings e) t))
                     (templates g))
          (table_of g).

(** The density that goes with a sample function of the warp module. *)
Definition pdf_of (f : warp_fn) : warp_fn :=
  match f with
  | square_to_uniform_triangle => square_to_uniform_triangle_pdf
  | square_to_tent => square_to_tent_pdf
  | square_to_uniform_disk => square_to_uniform_disk_pdf
  | square_to_uniform_disk_concentric => square_to_uniform_disk_concentric_pdf
  | square_to_uniform_sphere => square_to_uniform_sphere_pdf
  | square_to_uniform_hemisphere => square_to_uniform_hemisphere_pdf
  | square_to_cosine_hemisphere => square_to_cosine_hemisphere_pdf
  | square_to_uniform_cone => square_to_uniform_cone_pdf
  | square_to_beckmann => square_to_beckmann_pdf
  | square_to_von_mises_fisher => square_to_von_mises_fisher_pdf
  | square_to_rough_fiber => square_to_rough_fiber_pdf
  | g => g
  end.

Definition is_pdf (f : warp_fn) : bool :=
  match f with
  | square_to_uniform_triangle_pdf | square_to_tent_pdf
  | square_to_uniform_disk_pdf | square_to_uniform_disk_concentric_pdf
  | square_to_uniform_sphere_pdf | square_to_uniform_hemisphere_pdf
  | square_to_cosine_hemisphere_pdf | square_to_uniform_cone_pdf
  | square_to_beckmann_pdf | square_to_von_mises_fisher_pdf
  | square_to_rough_fiber_pdf => true
  | _ => false
  end.

#[global] Instance warp_fn_eq_dec : EqDecision warp_fn.
Proof. solve_decision. Defined.

Definition companions_b (g : module_state) : bool :=
  forallb (fun e => match funcs e with
                    | Pair (warp f) (warp h) =>
                        negb (is_pdf f) && bool_decide (h = pdf_of f)
                    | _ => true
                    end) (table_of g).

(** The range [[min, max]] of each declared parameter, in order. *)
Definition declared_ranges (s : store) (e : entry) : option (list (list Q)) :=
  option_map (map (fun p => [pmin p; pmax p])) (parameters_of s e).

Definition grid_of (f : functions) : option (list (list Q)) :=
  match f with
  | Pair (sample_functor (Linear2D2 _ param_values)) _ =>
      Some (map (map inject_Z) param_values)
  | _ => None
  end.

(** ** Which entries copy a template *)

(** The names of the entries whose settings the table writes as
    [dict(template, ...)], in the order of the table. *)
Definition copied_settings : list string :=
  ["Uniform triangle"; "Uniform cone"; "Beckmann distribution";
   "von Mises-Fisher distribution"; "Rough fiber distribution";
   "Spectrum: test"; "Spectrum: d65"; "Spectrum: blackbody";
   "Microfact: Beckmann, vis, 0.5"; "Microfact: Beckmann, vis, 0.1";
   "Microfact: GGX, vis, 0.5"; "Microfact: GGX, vis, 0.1";
   "Rough conductor BSDF - interactive";
   "Rough conductor BSDF - vis - interactive";
   "Hierarchical warp (4D, big)"].

(** Among them, the names of the entries whose [dict(template, ...)]
    passes [parameters=[...]]. *)
Definition overridden_parameters : list string :=
  ["Uniform cone"; "Beckmann distribution";
   "von Mises-Fisher distribution"; "Rough fiber distribution";
   "Spectrum: blackbody";
   "Microfact: Beckmann, vis, 0.5"; "Microfact: Beckmann, vis, 0.1";
   "Microfact: GGX, vis, 0.5"; "Microfact: GGX, vis, 0.1";
   "Rough conductor BSDF - interactive";
   "Rough conductor BSDF - vis - interactive";
   "Hierarchical warp (4D, big)"].

(** The one copy that is appended only when both hierarchical builders
    return. *)
Definition conditioned_name : string := "Hierarchical warp (4D, big)".

Definition in_names (n : string) (l : list string) : bool :=
  existsb (String.eqb n) l.

(** The ['parameters'] of an entry is a list that no template holds. *)
Definition distinct_parameters_b (g : module_state) (e : entry) : bool :=
  match parameters_ref g (settings e) with
  | Some p => forallb (fun t => match parameters_ref g t with
                                | Some q => negb (Pos.eqb p q)
                                | None => false
                                end) (templates g)
  | None => false
  end.

Definition copies_b (g : module_state) : bool :=
  forallb (fun e =>
             Bool.eqb (is_template_b g (settings e))
                      (negb (in_names (name e) copied_settings))
             && Bool.eqb (distinct_parameters_b g e)
                         (in_names (name e) overridden_parameters)
             && Bool.eqb (parameters_shared_b g e)
                         (negb (in_names (name e) overridden_parameters)))
          (table_of g)
  && forallb (fun n => String.eqb n conditioned_name
                       || in_names n (map name (table_of g)))
             copied_settings.

(** * Properties *)

(** ** Executing the module, by the outcomes of the two builders *)

Lemma over_outcomes (P : result unit * module_state -> Prop) :
  (forall b0 b2, P (statements b0 b2 initial_state)) ->
  forall fs, P (exec_module fs).
Proof. intros H fs. unfold exec_module, distr. apply H. Qed.

(** A property of the final state that a boolean test decides holds for
    all resources once it holds for each combination of outcomes. *)
Lemma checked_for_all (check : module_state -> bool) :
  (forall f0 f2, check (snd (statements (Ok f0) (Ok f2) initial_state)) = true) ->
  (forall f0 e, check (snd (statements (Ok f0) (Raise e) initial_state)) = true) ->
  (forall e b2, check (snd (statements (Raise e) b2 initial_state)) = true) ->
  forall fs, check (final fs) = true.
Proof.
  intros Hok H2 H0 fs. unfold final.
  apply (over_outcomes (fun r => check (snd r) = true)).
  intros [f0|e0] b2; [destruct b2 as [f2|e2]|]; auto.
Qed.

Ltac run_module check :=
  apply (checked_for_all check);
  [ intros [? ?] [? ?] | intros [? ?] ? | intros ? [[? ?]|?] ];
  vm_compute; reflexivity.

Lemma registry_table_of fs : registry fs = table_of (final fs).
Proof. reflexivity. Qed.

Lemma names_distinct_b_true fs : names_distinct_b (final fs) = true.
Proof. revert fs. run_module names_distinct_b. Qed.

Lemma ranges_b_true fs : ranges_b (final fs) = true.
Proof. revert fs. run_module ranges_b. Qed.

Lemma dimensions_b_true fs : dimensions_b (final fs) = true.
Proof. revert fs. run_module dimensions_b. Qed.

Lemma own_dicts_b_true fs : own_dicts_b (final fs) = true.
Proof. revert fs. run_module own_dicts_b. Qed.

Lemma own_parameters_b_true fs : own_parameters_b (final fs) = true.
Proof. revert fs. run_module own_parameters_b. Qed.

Lemma derived_b_true fs : derived_b (final fs) = true.
Proof. revert fs. run_module derived_b. Qed.

(** The full table has 35 entries and ends with the hierarchical ones. *)
Lemma full_registry_names :
  fst (exec_module sample_resources) = Ok tt /\
  length (registry sample_resources) = 35%nat /\
  map name (skipn 33 (registry sample_resources)) =
    ["Hierarchical warp (small)"; "Hierarchical warp (4D, big)"].
Proof. vm_compute. auto. Qed.

(** ** Names *)

(** C4.  The names of the entries of [DISTRIBUTIONS] are pairwise
    distinct, whatever the resources are: for the table of 33 entries left
    when a builder fails, and for the full table of 35 entries, the two
    hierarchical entries included. *)
Theorem registry_names_distinct (fs : resources) :
  NoDup (map name (registry fs)).
Proof.
  rewrite registry_table_of.
  apply (bool_decide_eq_true_1 (NoDup (map name (table_of (final fs))))).
  apply names_distinct_b_true.
Qed.

(** ** Parameter ranges *)

Lemma in_range_b_sound p : in_range_b p = true -> in_range p.
Proof.
  unfold in_range_b, in_range. intros H.
  apply andb_prop in H. destruct H as [H1 H2].
  split; apply Qle_bool_iff; assumption.
Qed.

Lemma defaults_in_range_b_sound s e :
  defaults_in_range_b s e = true -> defaults_in_range s e.
Proof.
  unfold defaults_in_range_b, defaults_in_range.
  destruct (parameters_of s e) as [ps|]; [|discriminate].
  intros H. exists ps. split; [reflexivity|].
  apply Forall_forall. intros p Hp.
  apply in_range_b_sound.
  rewrite forallb_forall in H. apply H. apply list_elem_of_In. exact Hp.
Qed.

(** C5.  For every entry of the table, the parameters of its settings can
    be read, and the default of each declared parameter lies between the
    minimum and the maximum of its range. *)
Theorem defaults_within_ranges (fs : resources) :
  Forall (defaults_in_range (heap (final fs))) (registry fs).
Proof.
  rewrite registry_table_of.
  apply Forall_forall. intros e He.
  apply defaults_in_range_b_sound.
  pose proof (ranges_b_true fs) as H. unfold ranges_b in H.
  rewrite forallb_forall in H. apply H. apply list_elem_of_In. exact He.
Qed.

(** ** Domains and sample dimensions *)

Lemma opt_Z_eqb_sound o z : opt_Z_eqb o z = true -> o = Some z.
Proof.
  destruct o as [y|]; simpl; [|discriminate].
  intros H. apply Z.eqb_eq in H. congruence.
Qed.

Lemma dimension_consistent_b_sound s e :
  dimension_consistent_b s e = true -> dimension_consistent s e.
Proof.
  unfold dimension_consistent_b, dimension_consistent.
  destruct (domain_of e).
  - apply opt_Z_eqb_sound.
  - destruct (bsdf_adapter (funcs e)).
    + apply opt_Z_eqb_sound.
    + intros H. apply orb_prop in H.
      destruct H as [H|H]; [left|right]; apply opt_Z_eqb_sound; exact H.
  - apply opt_Z_eqb_sound.
Qed.

(** C6.  For every entry of the table, the domain agrees with the
    [sample_dim] of the settings: 1 for a line domain, 2 for a planar
    domain, 2 or 3 for a spherical domain, and 3 when the functions are a
    BSDF adapter. *)
Theorem domain_matches_sample_dim (fs : resources) :
  Forall (dimension_consistent (heap (final fs))) (registry fs).
Proof.
  rewrite registry_table_of.
  apply Forall_forall. intros e He.
  apply dimension_consistent_b_sound.
  pose proof (dimensions_b_true fs) as H. unfold dimensions_b in H.
  rewrite forallb_forall in H. apply H. apply list_elem_of_In. exact He.
Qed.

(** ** Sharing of settings *)

Lemma all_some_map_ext {A B} (f g : A -> option B) (l : list A) :
  (forall x, In x l -> f x = g x) ->
  all_some (map f l) = all_some (map g l).
Proof.
  induction l as [|a l IH]; intros H; simpl; [reflexivity|].
  rewrite (H a (or_introl eq_refl)).
  rewrite IH; [reflexivity|].
  intros x Hx. apply H. right. exact Hx.
Qed.

Lemma not_in_union_list (l0 : loc) {A} (f : A -> gset loc) (l : list A) (x : A) :
  l0 ∉ ⋃ (map f l) -> In x l -> l0 ∉ f x.
Proof.
  intros Hn Hx Hin. apply Hn.
  apply elem_of_union_list. exists (f x). split; [|exact Hin].
  apply list_elem_of_In. apply in_map. exact Hx.
Qed.

(** Frame property: changing the object at a location that a reader does
    not go through leaves what the reader sees unchanged. *)
Lemma observe_frame (n : nat) :
  forall (h h' : gmap loc obj) (l0 : loc) (v : value),
    (forall l, l <> l0 -> h' !! l = h !! l) ->
    l0 ∉ reach n h v ->
    observe n h' v = observe n h v.
Proof.
  induction n as [|n IH]; intros h h' l0 v Hsame Hn; simpl; [reflexivity|].
  destruct v as [z|q|s|vs|l]; try reflexivity.
  - simpl in Hn. f_equal. apply all_some_map_ext.
    intros x Hx. apply (IH h h' l0); [exact Hsame|].
    exact (not_in_union_list l0 (reach n h) vs x Hn Hx).
  - simpl in Hn.
    apply not_elem_of_union in Hn. destruct Hn as [Hl Hrest].
    assert (l <> l0) as Hne by (intros ->; apply Hl; apply elem_of_singleton; reflexivity).
    rewrite (Hsame l Hne).
    destruct (h !! l) as [[d|vs]|]; [| |reflexivity].
    + f_equal. apply all_some_map_ext.
      intros kv Hkv. f_equal. apply (IH h h' l0); [exact Hsame|].
      exact (not_in_union_list l0 (fun kv => reach n h (snd kv)) _ kv Hrest Hkv).
    + f_equal. apply all_some_map_ext.
      intros x Hx. apply (IH h h' l0); [exact Hsame|].
      exact (not_in_union_list l0 (reach n h) vs x Hrest Hx).
Qed.

Lemma dict_setitem_elsewhere l k v s s' :
  dict_setitem l k v s = Ok s' ->
  forall l', l' <> l -> objects s' !! l' = objects s !! l'.
Proof.
  unfold dict_setitem. intros H l' Hne.
  destruct (objects s !! l) as [[d|vs]|]; try discriminate.
  injection H as <-. simpl. apply lookup_insert_ne. congruence.
Qed.

Lemma list_append_elsewhere l v s s' :
  list_append l v s = Ok s' ->
  forall l', l' <> l -> objects s' !! l' = objects s !! l'.
Proof.
  unfold list_append. intros H l' Hne.
  destruct (objects s !! l) as [[d|vs]|]; try discriminate.
  injection H as <-. simpl. apply lookup_insert_ne. congruence.
Qed.

Lemma apart_unseen g l root s' :
  apart g l root = true ->
  (forall l', l' <> l -> objects s' !! l' = objects (heap g) !! l') ->
  unseen g s' root.
Proof.
  unfold apart, unseen, look. intros Ha Hsame.
  apply bool_decide_eq_true_1 in Ha.
  apply (observe_frame 5 (objects (heap g)) (objects s') l); assumption.
Qed.

Lemma is_template_in g t : is_template g t -> In t (templates g).
Proof.
  unfold is_template, templates. intros [H|H]; rewrite H; simpl.
  - left. reflexivity.
  - apply in_or_app. right. left. reflexivity.
Qed.

Lemma in_templates g t : In t (templates g) -> is_template g t.
Proof.
  unfold is_template, templates. intros H. apply in_app_or in H.
  destruct (DEFAULT_SETTINGS g) as [a|], (DEFAULT_SETTINGS_3 g) as [b|];
    simpl in H; destruct H as [H|H]; try destruct H as [H|H]; try contradiction;
    subst; auto.
Qed.

Lemma lookup_in_seq {A} (es : list A) i e : es !! i = Some e -> In i (seq 0 (length es)).
Proof.
  intros H. apply in_seq. apply lookup_lt_Some in H. lia.
Qed.

Lemma apart_from_others_sound g es i l s' :
  apart_from_others g es i l = true ->
  (forall l', l' <> l -> objects s' !! l' = objects (heap g) !! l') ->
  unseen_elsewhere g es i s'.
Proof.
  unfold apart_from_others. intros H Hsame.
  apply andb_prop in H. destruct H as [Hes Hts].
  rewrite forallb_forall in Hes. rewrite forallb_forall in Hts.
  split.
  - intros j ej Hj Hne.
    specialize (Hes j (lookup_in_seq es j ej Hj)).
    rewrite Hj in Hes.
    apply orb_prop in Hes. destruct Hes as [Heq|Hap].
    + apply Nat.eqb_eq in Heq. contradiction.
    + exact (apart_unseen g l (settings ej) s' Hap Hsame).
  - intros t Ht.
    exact (apart_unseen g l t s' (Hts t (is_template_in g t Ht)) Hsame).
Qed.

Lemma is_template_b_sound g l : is_template_b g l = true -> is_template g l.
Proof.
  unfold is_template_b. intros H. apply existsb_exists in H.
  destruct H as [t [Ht Heq]]. apply Pos.eqb_eq in Heq. subst t.
  apply in_templates. exact Ht.
Qed.

(** Assigning an item through a dict that is not a template is seen
    nowhere else. *)
Lemma own_dict_reassigned g i ei s' :
  own_dicts_b g = true ->
  table_of g !! i = Some ei ->
  own_dict g ei ->
  reassigned (heap g) (settings ei) s' ->
  unseen_elsewhere g (table_of g) i s'.
Proof.
  unfold own_dicts_b, own_dicts_apart. intros Hb Hi Hown [k [v Hset]].
  rewrite forallb_forall in Hb.
  specialize (Hb i (lookup_in_seq _ i ei Hi)). rewrite Hi in Hb.
  apply orb_prop in Hb. destruct Hb as [Ht|Hap].
  - exfalso. apply Hown. apply is_template_b_sound. exact Ht.
  - apply (apart_from_others_sound g _ i (settings ei) s' Hap).
    exact (dict_setitem_elsewhere _ _ _ _ _ Hset).
Qed.

Lemma parameters_ref_getitem g l p :
  parameters_ref g l = Some p -> dict_getitem l "parameters" (heap g) = Some (VRef p).
Proof.
  unfold parameters_ref.
  destruct (dict_getitem l "parameters" (heap g)) as [[| | | |q]|]; try discriminate.
  intros H. injection H as ->. reflexivity.
Qed.

(** Appending to a ['parameters'] list that is not the list of a template
    is seen nowhere else. *)
Lemma own_parameters_appended g i ei s' :
  own_parameters_b g = true ->
  table_of g !! i = Some ei ->
  own_parameters g ei ->
  appended (heap g) (settings ei) s' ->
  unseen_elsewhere g (table_of g) i s'.
Proof.
  unfold own_parameters_b, own_parameters_apart.
  intros Hb Hi Hown [p [v [Hget Happ]]].
  rewrite forallb_forall in Hb.
  specialize (Hb i (lookup_in_seq _ i ei Hi)). rewrite Hi in Hb.
  unfold parameters_ref at 1 in Hb. rewrite Hget in Hb.
  apply orb_prop in Hb. destruct Hb as [Hshared|Hap].
  - exfalso. apply existsb_exists in Hshared.
    destruct Hshared as [t [Ht Hq]].
    destruct (parameters_ref g t) as [q|] eqn:Hpt; [|discriminate].
    apply Pos.eqb_eq in Hq. subst q.
    apply (Hown t (in_templates g t Ht)).
    rewrite Hget. symmetry. apply parameters_ref_getitem. exact Hpt.
  - apply (apart_from_others_sound g _ i p s' Hap).
    exact (list_append_elsewhere _ _ _ _ Happ).
Qed.

Lemma same_item_sound a b : same_item a b = true -> a = b.
Proof.
  destruct a as [[x|x|x|x|x]|], b as [[y|y|y|y|y]|]; simpl; try discriminate;
    intros H; try reflexivity.
  - apply Z.eqb_eq in H. congruence.
  - apply String.eqb_eq in H. congruence.
  - apply Pos.eqb_eq in H. congruence.
Qed.

Lemma derived_from_sound g e t :
  derived_from g e t = true -> is_template g t -> derived g e.
Proof.
  unfold derived_from, derived. intros H Ht.
  destruct (objects (heap g) !! t) as [[dt|]|] eqn:Hdt; try discriminate.
  destruct (objects (heap g) !! settings e) as [[d|]|] eqn:Hd; try discriminate.
  apply andb_prop in H. destruct H as [Hdom Hkeys].
  apply bool_decide_eq_true_1 in Hdom.
  rewrite forallb_forall in Hkeys.
  exists t, dt, d. repeat split; try assumption; try reflexivity.
  intros k Hk.
  destruct (decide (k ∈ dom d)) as [Hin|Hout].
  - assert (In k (elements (dom d))) as Hel
        by (apply list_elem_of_In; apply elem_of_elements; exact Hin).
    specialize (Hkeys k Hel). apply orb_prop in Hkeys.
    destruct Hkeys as [Hov|Hsame].
    + apply bool_decide_eq_true_1 in Hov. contradiction.
    + apply same_item_sound. exact Hsame.
  - assert (k ∉ dom dt) as Hout' by (rewrite <- Hdom; exact Hout).
    apply not_elem_of_dom in Hout. apply not_elem_of_dom in Hout'.
    rewrite Hout, Hout'. reflexivity.
Qed.

Lemma derived_b_sound g : derived_b g = true -> Forall (derived g) (table_of g).
Proof.
  unfold derived_b. intros H. rewrite forallb_forall in H.
  apply Forall_forall. intros e He.
  specialize (H e (proj1 (list_elem_of_In _ _) He)).
  apply existsb_exists in H. destruct H as [t [Ht Hd]].
  exact (derived_from_sound g e t Hd (in_templates g t Ht)).
Qed.

Lemma copies_b_true fs : copies_b (final fs) = true.
Proof. revert fs. run_module copies_b. Qed.

Lemma in_names_iff n l : in_names n l = true <-> In n l.
Proof.
  unfold in_names. rewrite existsb_exists. split.
  - intros [m [Hm Heq]]. apply String.eqb_eq in Heq. subst m. exact Hm.
  - intros H. exists n. split; [exact H|apply String.eqb_refl].
Qed.

Lemma is_template_b_complete g l : is_template g l -> is_template_b g l = true.
Proof.
  intros H. unfold is_template_b. apply existsb_exists.
  exists l. split; [apply is_template_in; exact H|apply Pos.eqb_refl].
Qed.

Lemma own_dict_iff g e : own_dict g e <-> is_template_b g (settings e) = false.
Proof.
  unfold own_dict. split.
  - intros H. destruct (is_template_b g (settings e)) eqn:E; [|reflexivity].
    exfalso. apply H. apply is_template_b_sound. exact E.
  - intros H Ht. rewrite (is_template_b_complete g _ Ht) in H. discriminate H.
Qed.

Lemma distinct_parameters_own g e :
  distinct_parameters_b g e = true -> own_parameters g e.
Proof.
  unfold distinct_parameters_b, own_parameters.
  destruct (parameters_ref g (settings e)) as [p|] eqn:Ep; [|discriminate].
  intros H t Ht. rewrite forallb_forall in H.
  specialize (H t (is_template_in g t Ht)).
  destruct (parameters_ref g t) as [q|] eqn:Eq; [|discriminate H].
  rewrite (parameters_ref_getitem g _ p Ep), (parameters_ref_getitem g _ q Eq).
  intros Heq. injection Heq as Heq. subst q.
  rewrite Pos.eqb_refl in H. discriminate H.
Qed.

Lemma shared_parameters_not_own g e :
  parameters_shared_b g e = true -> ~ own_parameters g e.
Proof.
  unfold parameters_shared_b, own_parameters.
  destruct (parameters_ref g (settings e)) as [p|] eqn:Ep; [|discriminate].
  intros H Hown. apply existsb_exists in H. destruct H as [t [Ht Heq]].
  destruct (parameters_ref g t) as [q|] eqn:Eq; [|discriminate Heq].
  simpl in Heq. apply Pos.eqb_eq in Heq. subst q.
  apply (Hown t (in_templates g t Ht)).
  rewrite (parameters_ref_getitem g _ p Ep), (parameters_ref_getitem g _ p Eq).
  reflexivity.
Qed.

(** What the table's way of writing the settings of an entry decides. *)
Lemma copies_b_sound g e :
  copies_b g = true -> In e (table_of g) ->
  (own_dict g e <-> In (name e) copied_settings) /\
  (own_parameters g e <-> In (name e) overridden_parameters).
Proof.
  unfold copies_b. intros H He.
  apply andb_prop in H. destruct H as [H _].
  rewrite forallb_forall in H. specialize (H e He).
  apply andb_prop in H. destruct H as [H Hs].
  apply andb_prop in H. destruct H as [Ht Hd].
  apply Bool.eqb_prop in Ht. apply Bool.eqb_prop in Hd. apply Bool.eqb_prop in Hs.
  split.
  - rewrite own_dict_iff, <- in_names_iff, Ht.
    destruct (in_names (name e) copied_settings); simpl; split; congruence.
  - rewrite <- in_names_iff. split.
    + intros Hown.
      destruct (in_names (name e) overridden_parameters); [reflexivity|].
      exfalso. exact (shared_parameters_not_own g e Hs Hown).
    + intros Hin. apply distinct_parameters_own. rewrite Hd. exact Hin.
Qed.

Lemma copies_b_present g n :
  copies_b g = true -> In n copied_settings -> n <> conditioned_name ->
  exists e, In e (table_of g) /\ name e = n.
Proof.
  unfold copies_b. intros H Hn Hne.
  apply andb_prop in H. destruct H as [_ H].
  rewrite forallb_forall in H. specialize (H n Hn).
  apply orb_prop in H. destruct H as [H|H].
  - apply String.eqb_eq in H. contradiction.
  - apply in_names_iff in H. apply in_map_iff in H.
    destruct H as [e [He Hin]]. exists e. split; [exact Hin|exact He].
Qed.

(** C1, as amended.  Every entry's settings dict has the keys of a
    template and differs from it at most in [sample_dim], [res] and
    [parameters].  The entries that the table builds with
    [dict(template, ...)] (their names are [copied_settings]) are exactly
    the entries whose settings are a dict of their own, and not a template;
    those whose [dict(template, ...)] passes [parameters=[...]]
    ([overridden_parameters]) are exactly the entries whose ['parameters']
    list is not the list of a template.  Each copy other than the
    conditioned hierarchical warp is in the table whatever the resources.
    An entry built with [dict(template, ...)] can have an item reassigned
    without this being seen through any other entry or through a template;
    an entry that overrides ['parameters'] can have that list appended to
    without this being seen elsewhere.  The other entries hold a template
    itself, or share its list, and are promised nothing. *)
Theorem settings_isolation_of_copies (fs : resources) :
  Forall (derived (final fs)) (registry fs) /\
  Forall (fun e =>
            (own_dict (final fs) e <-> In (name e) copied_settings) /\
            (own_parameters (final fs) e <-> In (name e) overridden_parameters))
         (registry fs) /\
  (forall n, In n copied_settings -> n <> conditioned_name ->
             exists e, In e (registry fs) /\ name e = n) /\
  (forall i ei s',
      registry fs !! i = Some ei ->
      In (name ei) copied_settings ->
      reassigned (heap (final fs)) (settings ei) s' ->
      unseen_elsewhere (final fs) (registry fs) i s') /\
  (forall i ei s',
      registry fs !! i = Some ei ->
      In (name ei) overridden_parameters ->
      appended (heap (final fs)) (settings ei) s' ->
      unseen_elsewhere (final fs) (registry fs) i s').
Proof.
  rewrite registry_table_of.
  pose proof (copies_b_true fs) as Hc.
  split; [|split; [|split; [|split]]].
  - apply derived_b_sound. apply derived_b_true.
  - apply Forall_forall. intros e He.
    exact (copies_b_sound (final fs) e Hc (proj1 (list_elem_of_In _ _) He)).
  - intros n Hn Hne. exact (copies_b_present (final fs) n Hc Hn Hne).
  - intros i ei s' Hi Hn Hset.
    assert (In ei (table_of (final fs))) as He
        by (apply list_elem_of_In; exact (list_elem_of_lookup_2 _ _ _ Hi)).
    exact (own_dict_reassigned (final fs) i ei s' (own_dicts_b_true fs) Hi
             (proj2 (proj1 (copies_b_sound (final fs) ei Hc He)) Hn) Hset).
  - intros i ei s' Hi Hn Happ.
    assert (In ei (table_of (final fs))) as He
        by (apply list_elem_of_In; exact (list_elem_of_lookup_2 _ _ _ Hi)).
    exact (own_parameters_appended (final fs) i ei s' (own_parameters_b_true fs) Hi
             (proj2 (proj2 (copies_b_sound (final fs) ei Hc He)) Hn) Happ).
Qed.

Lemma ok_of {A} (r : result A) : is_ok r = true -> exists a, r = Ok a.
Proof. destruct r as [a|e]; [exists a; reflexivity|discriminate]. Defined.

Lemma uniform_triangle_entry :
  registry sample_resources !! 1%nat =
  Some (mkEntry "Uniform triangle" unit_square
          (Pair (warp square_to_uniform_triangle) (warp square_to_uniform_triangle_pdf))
          5%positive).
Proof. vm_compute. reflexivity. Defined.

Lemma uniform_cone_entry :
  registry sample_resources !! 8%nat =
  Some (mkEntry "Uniform cone" SphericalDomain
          (Pair uniform_cone_sample uniform_cone_pdf) 8%positive).
Proof. vm_compute. reflexivity. Defined.

(** On the full table: 'Uniform triangle' is built with
    [dict(DEFAULT_SETTINGS, res=100)] and 'Uniform cone' overrides
    ['parameters'].  [res] of the first is reassigned, and a value is
    appended to the parameters of the second; neither is seen through
    another entry or a template. *)
Lemma settings_isolation_of_copies_witness :
  (In "Uniform triangle" copied_settings /\
   exists s',
      dict_setitem 5 "res" (VInt 7) (heap (final sample_resources)) = Ok s' /\
      unseen_elsewhere (final sample_resources) (registry sample_resources) 1 s') /\
  (In "Uniform cone" overridden_parameters /\
   exists s',
      list_append 7 (VInt 7) (heap (final sample_resources)) = Ok s' /\
      unseen_elsewhere (final sample_resources) (registry sample_resources) 8 s').
Proof.
  split.
  - split; [left; reflexivity|].
    assert (is_ok (dict_setitem 5 "res" (VInt 7) (heap (final sample_resources))) = true)
      as Hok by (vm_compute; reflexivity).
    destruct (ok_of _ Hok) as [s' Hs].
    exists s'. split; [exact Hs|].
    apply (proj1 (proj2 (proj2 (proj2 (settings_isolation_of_copies sample_resources))))
             1%nat _ s' uniform_triangle_entry).
    + left. reflexivity.
    + exists "res", (VInt 7). exact Hs.
  - split; [left; reflexivity|].
    assert (is_ok (list_append 7 (VInt 7) (heap (final sample_resources))) = true)
      as Hok by (vm_compute; reflexivity).
    destruct (ok_of _ Hok) as [s' Hs].
    exists s'. split; [exact Hs|].
    apply (proj2 (proj2 (proj2 (proj2 (settings_isolation_of_copies sample_resources))))
             8%nat _ s' uniform_cone_entry).
    + left. reflexivity.
    + exists 7%positive, (VInt 7). split; [vm_compute; reflexivity|exact Hs].
Defined.

(** C1, counterexample.  'Uniform square' and 'Tent function' hold the
    template [DEFAULT_SETTINGS] itself: reassigning [res] through the first
    is seen through the second. *)
Lemma settings_isolated_counterexample :
  ~ settings_isolated (final sample_resources) (registry sample_resources).
Proof.
  intros H.
  assert (registry sample_resources !! 0%nat =
          Some (mkEntry "Uniform square" unit_square
                  (Pair uniform_square_sample uniform_square_pdf) 2%positive)) as H0
      by (vm_compute; reflexivity).
  assert (registry sample_resources !! 2%nat =
          Some (mkEntry "Tent function" (PlanarDomain (Some [[-1; 1]; [-1; 1]]%Z))
                  (Pair (warp square_to_tent) (warp square_to_tent_pdf)) 2%positive)) as H2
      by (vm_compute; reflexivity).
  assert (is_ok (dict_setitem 2 "res" (VInt 7) (heap (final sample_resources))) = true)
    as Hok by (vm_compute; reflexivity).
  assert (look_after (dict_setitem 2 "res" (VInt 7) (heap (final sample_resources))) 2
          <> look (heap (final sample_resources)) 2) as Hseen
      by (vm_compute; discriminate).
  destruct (ok_of _ Hok) as [s' Hs].
  destruct (H 0%nat _ s' H0 (or_introl (ex_intro _ "res" (ex_intro _ (VInt 7) Hs))))
    as [Hothers _].
  specialize (Hothers 2%nat _ H2 ltac:(lia)).
  rewrite Hs in Hseen. exact (Hseen Hothers).
Qed.

(** The same for a shallow copy: 'Uniform triangle' has a dict of its own
    but its ['parameters'] list is the list of [DEFAULT_SETTINGS], so that
    appending to it is seen through the template. *)
Lemma shared_parameters_list :
  exists s',
    dict_getitem 5 "parameters" (heap (final sample_resources)) = Some (VRef 1) /\
    list_append 1 (VInt 7) (heap (final sample_resources)) = Ok s' /\
    DEFAULT_SETTINGS (final sample_resources) = Some 2%positive /\
    look s' 2 <> look (heap (final sample_resources)) 2.
Proof.
  assert (is_ok (list_append 1 (VInt 7) (heap (final sample_resources))) = true)
    as Hok by (vm_compute; reflexivity).
  assert (look_after (list_append 1 (VInt 7) (heap (final sample_resources))) 2
          <> look (heap (final sample_resources)) 2) as Hseen
      by (vm_compute; discriminate).
  destruct (ok_of _ Hok) as [s' Hs].
  exists s'. split; [vm_compute; reflexivity|]. split; [exact Hs|].
  split; [vm_compute; reflexivity|].
  rewrite Hs in Hseen. exact Hseen.
Qed.

(** ** Failure of a builder *)

Lemma table_names :
  length (registry no_resources) = 33%nat /\
  map name (registry no_resources) = firstn 33 all_names.
Proof. vm_compute. auto. Qed.

(** The module stops at the first builder that fails. *)
Lemma statements_raise b0 b2 e :
  b0 = Raise e \/ (is_ok b0 = true /\ b2 = Raise e) ->
  fst (statements b0 b2 initial_state) = Raise e /\
  table_of (snd (statements b0 b2 initial_state)) = registry no_resources.
Proof.
  intros [H0|[H0 H2]].
  - subst b0. split.
    + vm_compute. reflexivity.
    + vm_compute. reflexivity.
  - subst b2. destruct b0 as [[s0 p0]|e0]; [|discriminate]. split.
    + vm_compute. reflexivity.
    + vm_compute. reflexivity.
Qed.

(** C2, as amended.  An error raised by a builder is not confined to its
    entry: it is raised by the module, so that importing the table fails
    with it, and the table then holds the 33 entries of the first
    assignment, without either hierarchical entry. *)
Theorem builder_failure_propagates (fs : resources) (e : exn) :
  LinearWarp2D0Test fs = Raise e \/
  (is_ok (LinearWarp2D0Test fs) = true /\ LinearWarp2D2Test fs = Raise e) ->
  fst (exec_module fs) = Raise e /\
  import_DISTRIBUTIONS fs = Raise e /\
  registry fs = registry no_resources /\
  map name (registry fs) = firstn 33 all_names /\
  skipn 33 all_names = ["Hierarchical warp (small)"; "Hierarchical warp (4D, big)"].
Proof.
  intros H.
  destruct (statements_raise _ _ e H) as [Hr Ht].
  assert (registry fs = registry no_resources) as Hreg by exact Ht.
  assert (fst (exec_module fs) = Raise e) as Hexec by exact Hr.
  split; [exact Hexec|]. split.
  - unfold import_DISTRIBUTIONS.
    destruct (exec_module fs) as [r g]. simpl in Hexec. subst r. reflexivity.
  - split; [exact Hreg|]. split.
    + rewrite Hreg. exact (proj2 table_names).
    + vm_compute. reflexivity.
Qed.

Lemma builder_failure_propagates_witness :
  fst (exec_module resources_without_img0)
    = Raise (RuntimeError "resources/data/tests/warp/img0.png") /\
  import_DISTRIBUTIONS resources_without_img0
    = Raise (RuntimeError "resources/data/tests/warp/img0.png") /\
  registry resources_without_img0 = registry no_resources /\
  map name (registry resources_without_img0) = firstn 33 all_names /\
  skipn 33 all_names = ["Hierarchical warp (small)"; "Hierarchical warp (4D, big)"].
Proof.
  apply (builder_failure_propagates resources_without_img0).
  right. split; vm_compute; reflexivity.
Defined.

(** C2, counterexample.  With [img0.png] missing, [LinearWarp2D2Test]
    fails, and 'Hierarchical warp (small)', whose builder succeeded, is not
    in the table. *)
Lemma failure_isolated_counterexample : ~ failure_isolated.
Proof.
  intros H.
  destruct (H resources_without_img0) as [_ H2].
  assert (LinearWarp2D2Test resources_without_img0 =
          Raise (RuntimeError "resources/data/tests/warp/img0.png")) as Hfail
      by (vm_compute; reflexivity).
  specialize (H2 _ Hfail "Hierarchical warp (small)").
  assert ("Hierarchical warp (small)" ∈ all_names) as Hin
      by (apply (bool_decide_eq_true_1 ("Hierarchical warp (small)" ∈ all_names));
          vm_compute; reflexivity).
  assert ("Hierarchical warp (small)" <> "Hierarchical warp (4D, big)") as Hne
      by discriminate.
  specialize (H2 Hin Hne).
  revert H2.
  apply (bool_decide_eq_false_1
           ("Hierarchical warp (small)" ∈ map name (registry resources_without_img0))).
  vm_compute. reflexivity.
Qed.

(** ** The conditioned builder *)

Lemma set_plane_fits {A} (t : ndarray A) (i j : nat) (v : ndarray A) :
  skipn 2 (shape t) = plane ->
  broadcastable (shape v) plane = true ->
  exists t', set_plane t i j v = Ok t' /\ shape t' = shape t /\
    (forall y x, item t' [i; j; y; x] = item v (broadcast_index (shape v) [y; x])) /\
    (forall i' j' y x, (i', j') <> (i, j) -> item t' [i'; j'; y; x] = item t [i'; j'; y; x]).
Proof.
  intros Hsh Hb. unfold set_plane. rewrite Hsh, Hb.
  eexists. split; [reflexivity|]. split; [reflexivity|]. split.
  - intros y x. simpl. rewrite !Nat.eqb_refl. reflexivity.
  - intros i' j' y x Hne. simpl.
    destruct (i' =? i)%nat eqn:Ei; [|reflexivity].
    destruct (j' =? j)%nat eqn:Ej; [|reflexivity].
    apply Nat.eqb_eq in Ei. apply Nat.eqb_eq in Ej. subst. contradiction.
Qed.

Lemma set_plane_misfit {A} (t : ndarray A) (i j : nat) (v : ndarray A) :
  skipn 2 (shape t) = plane ->
  broadcastable (shape v) plane = false ->
  set_plane t i j v = Raise ValueError.
Proof.
  intros Hsh Hb. unfold set_plane. rewrite Hsh, Hb. reflexivity.
Qed.

(** The builder, once the four images are loaded. *)
Lemma LinearWarp2D2Test_loaded fs i0 i1 i2 i3 :
  map fs conditioned_paths = [Some i0; Some i1; Some i2; Some i3] ->
  LinearWarp2D2Test fs =
    (t <~ set_plane (full [2; 2; 512; 512]%nat 0%Q) 0 0 (squeeze i0);
     t <~ set_plane t 0 1 (squeeze i1);
     t <~ set_plane t 1 0 (squeeze i2);
     t <~ set_plane t 1 1 (squeeze i3);
     Ok (sample_functor (Linear2D2 t grid), pdf_functor (Linear2D2 t grid))).
Proof.
  intros H. cbv [conditioned_paths map] in H.
  injection H as H0 H1 H2 H3.
  unfold LinearWarp2D2Test, Bitmap. rewrite H0, H1, H2, H3. reflexivity.
Qed.

Lemma plane_item_single_channel (img : ndarray Q) (y x : nat) :
  shape img = [512; 512; 1]%nat -> plane_item img y x = item img [y; x; 0%nat].
Proof.
  intros H. unfold plane_item, squeeze. simpl. rewrite H. reflexivity.
Qed.

(** C8, as amended.  The conditioned builder reads the four files
    [img0.png] to [img3.png] and nothing else.  A file that cannot be
    loaded makes it raise.  Once the four are loaded, it succeeds exactly
    when each image, squeezed, can be broadcast into a 512 x 512 plane;
    the four planes [0,0], [0,1], [1,0] and [1,1] of the tensor handed to
    [Linear2D2] with the grid [[0,1],[0,1]] then hold [img0] to [img3];
    otherwise it raises a ValueError and returns no functions. *)
Theorem LinearWarp2D2Test_outcome (fs : resources) :
  (forall fs', map fs' conditioned_paths = map fs conditioned_paths ->
               LinearWarp2D2Test fs' = LinearWarp2D2Test fs) /\
  (In None (map fs conditioned_paths) ->
   exists p, In p conditioned_paths /\ fs p = None /\
             LinearWarp2D2Test fs = Raise (RuntimeError p)) /\
  (forall i0 i1 i2 i3,
      map fs conditioned_paths = [Some i0; Some i1; Some i2; Some i3] ->
      if forallb fits [i0; i1; i2; i3]
      then exists t,
          LinearWarp2D2Test fs =
            Ok (sample_functor (Linear2D2 t grid), pdf_functor (Linear2D2 t grid)) /\
          shape t = [2; 2; 512; 512]%nat /\
          forall y x,
            item t [0; 0; y; x]%nat = plane_item i0 y x /\
            item t [0; 1; y; x]%nat = plane_item i1 y x /\
            item t [1; 0; y; x]%nat = plane_item i2 y x /\
            item t [1; 1; y; x]%nat = plane_item i3 y x
      else LinearWarp2D2Test fs = Raise ValueError).
Proof.
  split; [|split].
  - intros fs' H. cbv [conditioned_paths map] in H.
    injection H as H0 H1 H2 H3.
    unfold LinearWarp2D2Test, Bitmap. rewrite H0, H1, H2, H3. reflexivity.
  - intros H. cbv [conditioned_paths map] in H.
    unfold LinearWarp2D2Test, Bitmap, conditioned_paths.
    destruct (fs (prefix ++ "img0.png")%string) as [i0|] eqn:E0;
      [|eexists; split; [left; reflexivity|]; split; [exact E0|reflexivity]].
    destruct (fs (prefix ++ "img1.png")%string) as [i1|] eqn:E1;
      [|eexists; split; [right; left; reflexivity|]; split; [exact E1|reflexivity]].
    destruct (fs (prefix ++ "img2.png")%string) as [i2|] eqn:E2;
      [|eexists; split; [do 2 right; left; reflexivity|]; split; [exact E2|reflexivity]].
    destruct (fs (prefix ++ "img3.png")%string) as [i3|] eqn:E3;
      [|eexists; split; [do 3 right; left; reflexivity|]; split; [exact E3|reflexivity]].
    exfalso. destruct H as [H|[H|[H|[H|[]]]]]; discriminate.
  - intros i0 i1 i2 i3 H.
    rewrite (LinearWarp2D2Test_loaded fs i0 i1 i2 i3 H).
    cbn [forallb]. unfold fits.
    destruct (broadcastable (shape (squeeze i0)) plane) eqn:F0; cbn [andb];
      [|rewrite set_plane_misfit; [reflexivity|reflexivity|exact F0]].
    destruct (set_plane_fits (full [2; 2; 512; 512]%nat 0%Q) 0 0 (squeeze i0) eq_refl F0)
      as [t1 [T1 [S1 [P1 K1]]]].
    rewrite T1. cbn [rbind].
    assert (skipn 2 (shape t1) = plane) as W1 by (rewrite S1; reflexivity).
    destruct (broadcastable (shape (squeeze i1)) plane) eqn:F1; cbn [andb];
      [|rewrite set_plane_misfit; [reflexivity|exact W1|exact F1]].
    destruct (set_plane_fits t1 0 1 (squeeze i1) W1 F1) as [t2 [T2 [S2 [P2 K2]]]].
    rewrite T2. cbn [rbind].
    assert (skipn 2 (shape t2) = plane) as W2 by (rewrite S2; exact W1).
    destruct (broadcastable (shape (squeeze i2)) plane) eqn:F2; cbn [andb];
      [|rewrite set_plane_misfit; [reflexivity|exact W2|exact F2]].
    destruct (set_plane_fits t2 1 0 (squeeze i2) W2 F2) as [t3 [T3 [S3 [P3 K3]]]].
    rewrite T3. cbn [rbind].
    assert (skipn 2 (shape t3) = plane) as W3 by (rewrite S3; exact W2).
    destruct (broadcastable (shape (squeeze i3)) plane) eqn:F3; cbn [andb];
      [|rewrite set_plane_misfit; [reflexivity|exact W3|exact F3]].
    destruct (set_plane_fits t3 1 1 (squeeze i3) W3 F3) as [t4 [T4 [S4 [P4 K4]]]].
    rewrite T4. cbn [rbind].
    exists t4. split; [reflexivity|]. split.
    + rewrite S4, S3, S2, S1. reflexivity.
    + intros y x. unfold plane_item. repeat split.
      * rewrite K4, K3, K2 by (intros E; inversion E). apply P1.
      * rewrite K4, K3 by (intros E; inversion E). apply P2.
      * rewrite K4 by (intros E; inversion E). apply P3.
      * apply P4.
Qed.

Lemma sample_images_loaded :
  map sample_resources conditioned_paths =
    [Some (image 512 512 1 1); Some (image 512 512 1 2);
     Some (image 512 512 1 3); Some (image 512 512 1 4)].
Proof. vm_compute. reflexivity. Defined.

Lemma small_images_loaded :
  map resources_256 conditioned_paths =
    [Some (image 256 256 1 1); Some (image 256 256 1 1);
     Some (image 256 256 1 1); Some (image 256 256 1 1)].
Proof. vm_compute. reflexivity. Defined.

(** Four 512 x 512 images are taken; four 256 x 256 images of equal
    resolution are refused; a missing file is reported. *)
Lemma LinearWarp2D2Test_outcome_witness :
  (exists t,
      LinearWarp2D2Test sample_resources =
        Ok (sample_functor (Linear2D2 t grid), pdf_functor (Linear2D2 t grid)) /\
      item t [1; 1; 3; 4]%nat = 4%Q /\ item t [0; 1; 3; 4]%nat = 2%Q) /\
  LinearWarp2D2Test resources_256 = Raise ValueError /\
  (exists p, LinearWarp2D2Test resources_without_img0 = Raise (RuntimeError p)).
Proof.
  split; [|split].
  - pose proof (proj2 (proj2 (LinearWarp2D2Test_outcome sample_resources))
                  _ _ _ _ sample_images_loaded) as H.
    assert (forallb fits [image 512 512 1 1; image 512 512 1 2;
                          image 512 512 1 3; image 512 512 1 4] = true) as Hf
        by (vm_compute; reflexivity).
    rewrite Hf in H. destruct H as [t [Ht [_ Hitems]]].
    exists t. split; [exact Ht|].
    destruct (Hitems 3%nat 4%nat) as [_ [H01 [_ H11]]].
    rewrite H11, H01. split; vm_compute; reflexivity.
  - pose proof (proj2 (proj2 (LinearWarp2D2Test_outcome resources_256))
                  _ _ _ _ small_images_loaded) as H.
    assert (forallb fits [image 256 256 1 1; image 256 256 1 1;
                          image 256 256 1 1; image 256 256 1 1] = false) as Hf
        by (vm_compute; reflexivity).
    rewrite Hf in H. exact H.
  - destruct (proj1 (proj2 (LinearWarp2D2Test_outcome resources_without_img0)))
      as [p [_ [_ Hp]]].
    + left. vm_compute. reflexivity.
    + exists p. exact Hp.
Defined.

(** C8, counterexample.  [img3.png] is one pixel high while the other
    three are 512 x 512: the dimensions do not match, and the builder
    succeeds, the single row being repeated over the plane. *)
Lemma mismatch_is_fatal_counterexample : ~ mismatch_is_fatal.
Proof.
  intros H.
  assert (map resources_flat_img3 conditioned_paths =
          [Some (image 512 512 1 1); Some (image 512 512 1 2);
           Some (image 512 512 1 3); Some (image 1 512 1 4)]) as Hl
      by (vm_compute; reflexivity).
  destruct (H resources_flat_img3 _ _ _ _ Hl) as [e He].
  - intros [_ [_ E]]. vm_compute in E. discriminate.
  - assert (is_ok (LinearWarp2D2Test resources_flat_img3) = true) as Hok
        by (vm_compute; reflexivity).
    rewrite He in Hok. discriminate.
Qed.

(** ** The table, whatever the resources *)

(** What is read from the store through an entry of the static table does
    not depend on the resources. *)
Ltac read_for_all fs :=
  unfold final;
  match goal with
  | |- ?read (heap (snd (exec_module fs))) ?e = ?v =>
      apply (over_outcomes (fun r => read (heap (snd r)) e = v))
  end;
  intros [[? ?]|?] [[? ?]|?]; vm_compute; reflexivity.

Lemma registry_prefix fs : firstn 33 (registry fs) = registry no_resources.
Proof.
  rewrite registry_table_of. unfold final.
  apply (over_outcomes (fun r => firstn 33 (table_of (snd r)) = registry no_resources)).
  intros [[s0 p0]|e0] [[s2 p2]|e2]; vm_compute; reflexivity.
Qed.

Lemma in_table_in_registry fs e : In e (registry no_resources) -> In e (registry fs).
Proof.
  intros H. rewrite <- (firstn_skipn 33 (registry fs)).
  apply in_or_app. left. rewrite registry_prefix. exact H.
Qed.

(** A successful import: both builders returned, and the table is the
    static one followed by the two hierarchical entries. *)
Lemma import_ok fs es :
  import_DISTRIBUTIONS fs = Ok es ->
  exists f0 f2 l0 l2,
    LinearWarp2D0Test fs = Ok f0 /\ LinearWarp2D2Test fs = Ok f2 /\
    es = registry fs /\
    skipn 33 es =
      [mkEntry "Hierarchical warp (small)" unit_square (Pair (fst f0) (snd f0)) l0;
       mkEntry "Hierarchical warp (4D, big)" unit_square (Pair (fst f2) (snd f2)) l2].
Proof.
  unfold import_DISTRIBUTIONS, registry, final, exec_module, distr.
  destruct (LinearWarp2D0Test fs) as [[s0 p0]|e0];
    destruct (LinearWarp2D2Test fs) as [[s2 p2]|e2];
    intros H.
  - exists (s0, p0), (s2, p2).
    destruct (statements (Ok (s0, p0)) (Ok (s2, p2)) initial_state) as [r g] eqn:Hst.
    assert (skipn 33 (table_of g) =
            [mkEntry "Hierarchical warp (small)" unit_square (Pair s0 p0) 2%positive;
             mkEntry "Hierarchical warp (4D, big)" unit_square (Pair s2 p2) 51%positive])
      as Hsk.
    { replace g with (snd (statements (Ok (s0, p0)) (Ok (s2, p2)) initial_state))
        by (rewrite Hst; reflexivity).
      vm_compute. reflexivity. }
    exists 2%positive, 51%positive.
    split; [reflexivity|]. split; [reflexivity|].
    destruct r as [u|e]; [|discriminate].
    unfold table_of in Hsk. simpl snd in *.
    destruct (DISTRIBUTIONS g) as [es'|]; [|discriminate].
    injection H as <-. split; [reflexivity|]. exact Hsk.
  - exfalso. vm_compute in H. discriminate.
  - exfalso. vm_compute in H. discriminate.
  - exfalso. vm_compute in H. discriminate.
Qed.

Lemma LinearWarp2D0Test_ok fs f :
  LinearWarp2D0Test fs = Ok f ->
  exists d, f = (sample_functor d, pdf_functor d).
Proof.
  unfold LinearWarp2D0Test.
  destruct (Bitmap fs (prefix ++ "small.png")) as [img|]; cbn [rbind]; [|discriminate].
  intros H. injection H as <-. eexists. reflexivity.
Qed.

Lemma LinearWarp2D2Test_ok fs f :
  LinearWarp2D2Test fs = Ok f ->
  exists d, f = (sample_functor d, pdf_functor d).
Proof.
  unfold LinearWarp2D2Test.
  destruct (Bitmap fs (prefix ++ "img0.png")) as [i0|]; cbn [rbind]; [|discriminate].
  destruct (Bitmap fs (prefix ++ "img1.png")) as [i1|]; cbn [rbind]; [|discriminate].
  destruct (Bitmap fs (prefix ++ "img2.png")) as [i2|]; cbn [rbind]; [|discriminate].
  destruct (Bitmap fs (prefix ++ "img3.png")) as [i3|]; cbn [rbind]; [|discriminate].
  destruct (set_plane _ 0 0 (squeeze i0)) as [t1|]; cbn [rbind]; [|discriminate].
  destruct (set_plane t1 0 1 (squeeze i1)) as [t2|]; cbn [rbind]; [|discriminate].
  destruct (set_plane t2 1 0 (squeeze i2)) as [t3|]; cbn [rbind]; [|discriminate].
  destruct (set_plane t3 1 1 (squeeze i3)) as [t4|]; cbn [rbind]; [|discriminate].
  intros H. injection H as <-. eexists. reflexivity.
Qed.

(** ** The functors of the hierarchical entries *)

(** C10.  When the import succeeds, each of the two hierarchical entries
    holds a pair of closures over one distribution object [d].  The sample
    functor returns the first component of what [d.sample] returns, a
    position and never a pair, and passes on what [d.sample] raises; the
    density functor returns what [d.eval] returns. *)
Theorem hierarchical_functors (E : Externals) (fs : resources) (es : list entry) :
  import_DISTRIBUTIONS fs = Ok es ->
  exists d0 d2 l0 l2,
    skipn 33 es =
      [mkEntry "Hierarchical warp (small)" unit_square
         (Pair (sample_functor d0) (pdf_functor d0)) l0;
       mkEntry "Hierarchical warp (4D, big)" unit_square
         (Pair (sample_functor d2) (pdf_functor d2)) l2] /\
    forall d x args,
      In d [d0; d2] ->
      (forall pos dens, dist_sample d x args = Ok (pos, dens) ->
                        call (sample_functor d) x args = Ok pos) /\
      (forall e, dist_sample d x args = Raise e ->
                 call (sample_functor d) x args = Raise e) /\
      call (pdf_functor d) x args = dist_eval d x args.
Proof.
  intros H.
  destruct (import_ok fs es H) as [f0 [f2 [l0 [l2 [H0 [H2 [_ Hsk]]]]]]].
  destruct (LinearWarp2D0Test_ok fs f0 H0) as [d0 ->].
  destruct (LinearWarp2D2Test_ok fs f2 H2) as [d2 ->].
  exists d0, d2, l0, l2. split; [exact Hsk|].
  intros d x args _. split; [|split].
  - intros pos dens Hs. cbn [call]. rewrite Hs. reflexivity.
  - intros e Hs. cbn [call]. rewrite Hs. reflexivity.
  - reflexivity.
Qed.

Lemma sample_import :
  import_DISTRIBUTIONS sample_resources = Ok (registry sample_resources).
Proof. vm_compute. reflexivity. Defined.

(** The full table, with a distribution object that samples the input
    itself: the sample functor returns that input alone. *)
Lemma hierarchical_functors_witness :
  exists d0 d2 l0 l2,
    skipn 33 (registry sample_resources) =
      [mkEntry "Hierarchical warp (small)" unit_square
         (Pair (sample_functor d0) (pdf_functor d0)) l0;
       mkEntry "Hierarchical warp (4D, big)" unit_square
         (Pair (sample_functor d2) (pdf_functor d2)) l2] /\
    @call echo (sample_functor d0) (points 3 0) [] = Ok (points 3 0) /\
    @call echo (sample_functor d2) (points 3 0) [0.5%R; 0.005%R] = Ok (points 3 0).
Proof.
  destruct (hierarchical_functors echo sample_resources _ sample_import)
    as [d0 [d2 [l0 [l2 [Hsk Hcall]]]]].
  exists d0, d2, l0, l2. split; [exact Hsk|]. split.
  - apply (proj1 (Hcall d0 (points 3 0) [] (or_introl eq_refl)) (points 3 0) (ones 3)).
    reflexivity.
  - apply (proj1 (Hcall d2 (points 3 0) [0.5%R; 0.005%R] (or_intror (or_introl eq_refl)))
             (points 3 0) (ones 3)).
    reflexivity.
Defined.

(** ** The density of 'Uniform square' *)

Lemma uniform_square_entry fs :
  head (registry fs) =
  Some (mkEntry "Uniform square" unit_square
          (Pair uniform_square_sample uniform_square_pdf) 2%positive).
Proof.
  assert (head (firstn 33 (registry fs)) = head (registry fs)) as <-
      by (destruct (registry fs); reflexivity).
  rewrite registry_prefix. vm_compute. reflexivity.
Qed.

Local Open Scope R_scope.

(** C3, as amended.  The first entry of the table is 'Uniform square' on
    the rectangle [0,1] x [0,1], and its density is the second lambda of
    the pair.  On an input with at least one axis that density does not
    raise and returns one value per row, each equal to 1, hence not
    negative, whether the row lies in the rectangle or not. *)
Theorem uniform_square_density
  (E : Externals) (fs : resources) (x : ndarray R) (n : nat) (rest : list nat) :
  shape x = n :: rest ->
  (exists e, head (registry fs) = Some e /\ name e = "Uniform square"%string /\
             domain_of e = unit_square /\
             funcs e = Pair uniform_square_sample uniform_square_pdf) /\
  call uniform_square_pdf x [] = Ok (ones n) /\
  shape (ones n) = [n] /\
  forall idx, item (ones n) idx = 1 /\ 0 <= item (ones n) idx.
Proof.
  intros Hx. split.
  - eexists. split; [apply uniform_square_entry|]. repeat split.
  - split.
    + unfold call, shape0. rewrite Hx. reflexivity.
    + split; [reflexivity|]. intros idx. simpl. split; [reflexivity|lra].
Qed.

Lemma uniform_square_density_witness :
  @call echo uniform_square_pdf (points 1 2) [] = Ok (ones 1) /\
  item (ones 1) [0%nat] = 1.
Proof.
  destruct (uniform_square_density echo sample_resources (points 1 2) 1 [2%nat] eq_refl)
    as [_ [Hcall [_ Hitem]]].
  split; [exact Hcall|]. exact (proj1 (Hitem [0%nat])).
Defined.

(** C3, counterexample.  The point (2, 2) lies outside the rectangle and
    the density there is 1, not 0. *)
Lemma zero_outside_support_counterexample : ~ zero_outside_support.
Proof.
  intros H.
  destruct (H echo (points 1 2) 0%nat) as [y [Hy Hz]].
  - exists 1%nat. split; [reflexivity|]. split; [lia|].
    intros [[_ Hle] _]. unfold points, full in Hle. simpl in Hle. lra.
  - unfold call, shape0, points, full in Hy. simpl in Hy.
    injection Hy as <-. unfold ones, full in Hz. simpl in Hz. lra.
Qed.

Local Close Scope R_scope.

(** ** Arguments and declared parameters *)

(** As [checked_for_all], knowing that a builder returns two closures
    over one object. *)
Lemma checked_for_all_functors (check : module_state -> bool) :
  (forall d0 d2,
      check (snd (statements (Ok (sample_functor d0, pdf_functor d0))
                             (Ok (sample_functor d2, pdf_functor d2))
                             initial_state)) = true) ->
  (forall f0 e, check (snd (statements (Ok f0) (Raise e) initial_state)) = true) ->
  (forall e b2, check (snd (statements (Raise e) b2 initial_state)) = true) ->
  forall fs, check (final fs) = true.
Proof.
  intros Hok H2 H0 fs. unfold final, exec_module, distr.
  destruct (LinearWarp2D0Test fs) as [f0|e0] eqn:E0; [|apply H0].
  destruct (LinearWarp2D2Test fs) as [f2|e2] eqn:E2; [|apply H2].
  destruct (LinearWarp2D0Test_ok fs f0 E0) as [d0 ->].
  destruct (LinearWarp2D2Test_ok fs f2 E2) as [d2 ->].
  apply Hok.
Qed.

Lemma arities_b_true fs : arities_b (final fs) = true.
Proof.
  revert fs. apply (checked_for_all_functors arities_b).
  - intros d0 d2. vm_compute. reflexivity.
  - intros [s0 p0] e. vm_compute. reflexivity.
  - intros e [[s2 p2]|e2]; vm_compute; reflexivity.
Qed.

Ltac arity_case :=
  cbn [call warp_call map kind_of kinds_eqb kind_eqb warp_signature andb rbind length];
  split; intros; try discriminate; try lia; try reflexivity; try congruence.

(** A function that takes [n] extra arguments raises a TypeError exactly
    when it is called with another number of them. *)
Lemma takes_spec (E : Externals) (c : callable) (n : nat) (x : ndarray R) (args : list R) :
  takes c n = true ->
  (call c x args = Raise TypeError <-> length args <> n).
Proof.
  unfold takes. intros H.
  destruct (extra_arguments c) as [m|] eqn:Hm; [|discriminate].
  apply Nat.eqb_eq in H. subst n.
  destruct c as [f| | | | | | | | |d|d]; try discriminate.
  - destruct f; cbn in Hm; try discriminate; injection Hm as <-;
      destruct args as [|a [|b args]]; arity_case.
  - injection Hm as <-. destruct args as [|a args]; arity_case.
  - injection Hm as <-. destruct args as [|a args]; [|arity_case].
    cbn [call]. unfold shape0. destruct (shape x); arity_case.
  - injection Hm as <-. destruct args as [|a [|b args]]; arity_case.
  - injection Hm as <-. destruct args as [|a [|b args]]; arity_case.
  - injection Hm as <-. destruct args as [|a [|b args]]; arity_case.
  - injection Hm as <-. destruct args as [|a [|b args]]; arity_case.
  - injection Hm as <-.
    destruct args as [|a [|b [|c args]]]; [arity_case|arity_case| |arity_case].
    cbn [call]. unfold shape0. destruct (shape x); arity_case.
  - injection Hm as <-.
    destruct args as [|a [|b [|c args]]]; [arity_case|arity_case| |arity_case].
    cbn [call]. unfold shape0. destruct (shape x); arity_case.
Qed.

Lemma rough_fiber_entry fs :
  exists e,
    In e (registry fs) /\ name e = "Rough fiber distribution" /\
    funcs e = Pair rough_fiber_sample rough_fiber_pdf /\
    labels_of (heap (final fs)) e = Some ["Concentration"; "Inclination"].
Proof.
  exists (mkEntry "Rough fiber distribution" SphericalDomain
            (Pair rough_fiber_sample rough_fiber_pdf) 18%positive).
  split.
  - apply in_table_in_registry.
    apply (nth_error_In _ 11). vm_compute. reflexivity.
  - split; [reflexivity|]. split; [reflexivity|].
    read_for_all fs.
Qed.

Local Open Scope R_scope.

(** C7.  For an entry whose two functions are written in the table (a
    lambda or a function of the warp module, not a closure of a builder),
    the sample function and the density function take, after their first
    argument, exactly as many arguments as the settings declare
    parameters: any other number raises a TypeError, that number does not.
    The arguments are bound by position; for 'Rough fiber distribution',
    the only such entry with two parameters, the first value,
    'Concentration', is handed to the warp as [kappa], and the second,
    'Inclination', is the angle in degrees that orients [wi]. *)
Theorem parameter_arity (E : Externals) (fs : resources) :
  (forall e sample density ps x args,
      In e (registry fs) ->
      funcs e = Pair sample density ->
      directly_given sample = true ->
      directly_given density = true ->
      parameters_of (heap (final fs)) e = Some ps ->
      (call sample x args = Raise TypeError <-> length args <> length ps) /\
      (call density x args = Raise TypeError <-> length args <> length ps)) /\
  (exists e,
      In e (registry fs) /\ name e = "Rough fiber distribution"%string /\
      funcs e = Pair rough_fiber_sample rough_fiber_pdf /\
      labels_of (heap (final fs)) e = Some ["Concentration"; "Inclination"]%string /\
      forall x n rest kappa incl,
        shape x = n :: rest ->
        let wi := tile_rows [sin (deg2rad incl); 0; cos (deg2rad incl)] n in
        let tangent := tile_rows [1; 0; 0] n in
        call rough_fiber_sample x [kappa; incl] =
          Ok (warp_eval square_to_rough_fiber [Arr x; Arr wi; Arr tangent; Num kappa]) /\
        call rough_fiber_pdf x [kappa; incl] =
          Ok (warp_eval square_to_rough_fiber_pdf [Arr x; Arr wi; Arr tangent; Num kappa])).
Proof.
  split.
  - intros e sample density ps x args He Hf Hs Hd Hps.
    pose proof (arities_b_true fs) as Hb. unfold arities_b in Hb.
    rewrite forallb_forall in Hb.
    rewrite registry_table_of in He.
    specialize (Hb e He). unfold arity_consistent_b in Hb.
    rewrite Hf, Hs, Hd, Hps in Hb. cbn [andb] in Hb.
    apply andb_prop in Hb. destruct Hb as [Hts Htd].
    split; apply takes_spec; assumption.
  - destruct (rough_fiber_entry fs) as [e [He [Hn [Hf Hl]]]].
    exists e. split; [exact He|]. split; [exact Hn|]. split; [exact Hf|].
    split; [exact Hl|].
    intros x n rest kappa incl Hx wi tangent. split.
    + cbn [call]. unfold shape0. rewrite Hx. reflexivity.
    + cbn [call]. unfold shape0. rewrite Hx. reflexivity.
Qed.

Lemma beckmann_entry_in_table :
  In (mkEntry "Beckmann distribution" SphericalDomain
        (Pair beckmann_sample beckmann_pdf) 11%positive)
     (registry sample_resources).
Proof. apply (nth_error_In _ 9). vm_compute. reflexivity. Defined.

Lemma beckmann_entry_parameters :
  parameters_of (heap (final sample_resources))
    (mkEntry "Beckmann distribution" SphericalDomain
       (Pair beckmann_sample beckmann_pdf) 11%positive)
  = Some [mkParameter "Roughness" 0 1 0.6].
Proof. vm_compute. reflexivity. Defined.

(** 'Beckmann distribution' declares one parameter: its lambdas accept
    one extra argument and refuse none or two. *)
Lemma parameter_arity_witness :
  @call echo beckmann_sample (points 1 0) [0.6] = Ok (points 1 0) /\
  @call echo beckmann_sample (points 1 0) [] = Raise TypeError /\
  @call echo beckmann_pdf (points 1 0) [0.6; 0.6] = Raise TypeError.
Proof.
  pose proof (proj1 (parameter_arity echo sample_resources)
                _ _ _ _ (points 1 0) [] beckmann_entry_in_table eq_refl eq_refl eq_refl
                beckmann_entry_parameters) as H0.
  pose proof (proj1 (parameter_arity echo sample_resources)
                _ _ _ _ (points 1 0) [0.6; 0.6] beckmann_entry_in_table eq_refl eq_refl
                eq_refl beckmann_entry_parameters) as H2.
  split; [reflexivity|]. split.
  - apply (proj1 H0). simpl. lia.
  - apply (proj2 H2). simpl. lia.
Defined.

Local Close Scope R_scope.

(** ** The roughness of 'Beckmann distribution' *)

Local Open Scope R_scope.

Lemma ln_005_negative : ln 0.05 < 0.
Proof. rewrite <- ln_1. apply ln_increasing; lra. Qed.

Lemma exp_monotone (a b : R) : a <= b -> exp a <= exp b.
Proof.
  intros [Hlt|Heq].
  - left. apply exp_increasing. exact Hlt.
  - right. rewrite Heq. reflexivity.
Qed.

(** The expression written in both lambdas is a power of 0.05. *)
Lemma roughness_as_power (value : R) :
  exp (ln 0.05 * (1 - value) + ln 1 * value) = Rpower 0.05 (1 - value).
Proof.
  unfold Rpower. rewrite ln_1. f_equal. ring.
Qed.

Lemma roughness_bounds (value : R) :
  0 <= value <= 1 -> 0.05 <= Rpower 0.05 (1 - value) <= 1.
Proof.
  intros [H0 H1]. pose proof ln_005_negative as Hn. unfold Rpower.
  assert (0 <= value * - ln 0.05) as Ha by (apply Rmult_le_pos; lra).
  assert (0 <= (1 - value) * - ln 0.05) as Hb by (apply Rmult_le_pos; lra).
  split.
  - rewrite <- (exp_ln 0.05) at 1 by lra. apply exp_monotone. lra.
  - apply Rle_trans with (exp 0); [apply exp_monotone; lra|].
    rewrite exp_0. lra.
Qed.

Lemma roughness_strict (value : R) :
  0 < value < 1 -> 0.05 < Rpower 0.05 (1 - value) < 1.
Proof.
  intros [H0 H1]. pose proof ln_005_negative as Hn. unfold Rpower.
  assert (0 < value * - ln 0.05) as Ha by (apply Rmult_lt_0_compat; lra).
  assert (0 < (1 - value) * - ln 0.05) as Hb by (apply Rmult_lt_0_compat; lra).
  split.
  - rewrite <- (exp_ln 0.05) at 1 by lra. apply exp_increasing. lra.
  - apply Rlt_le_trans with (exp 0); [apply exp_increasing; lra|].
    rewrite exp_0. lra.
Qed.

Lemma beckmann_entry fs :
  exists e,
    In e (registry fs) /\ name e = "Beckmann distribution"%string /\
    funcs e = Pair beckmann_sample beckmann_pdf /\
    parameters_of (heap (final fs)) e = Some [mkParameter "Roughness" 0 1 0.6].
Proof.
  exists (mkEntry "Beckmann distribution" SphericalDomain
            (Pair beckmann_sample beckmann_pdf) 11%positive).
  split.
  - apply in_table_in_registry. apply (nth_error_In _ 9). vm_compute. reflexivity.
  - split; [reflexivity|]. split; [reflexivity|].
    read_for_all fs.
Qed.

(** C9.  In 'Beckmann distribution' the sample lambda and the density
    lambda hand to the warp the same roughness for a parameter value [v],
    namely exp(log(0.05)(1 - v) + log(1) v) = 0.05^(1 - v); for [v] in
    [0, 1] it lies in [0.05, 1]; the entry declares the single parameter
    'Roughness' with range [0, 1] and default 0.6, for which the roughness
    lies strictly between 0.05 and 1.  Arithmetic is that of the real
    numbers. *)
Theorem beckmann_roughness
  (E : Externals) (fs : resources) (x p : ndarray R) (v : R) :
  0 <= v <= 1 ->
  call beckmann_sample x [v] =
    Ok (warp_eval square_to_beckmann [Arr x; Num (Rpower 0.05 (1 - v))]) /\
  call beckmann_pdf p [v] =
    Ok (warp_eval square_to_beckmann_pdf [Arr p; Num (Rpower 0.05 (1 - v))]) /\
  0.05 <= Rpower 0.05 (1 - v) <= 1 /\
  exists e d,
    In e (registry fs) /\ name e = "Beckmann distribution"%string /\
    funcs e = Pair beckmann_sample beckmann_pdf /\
    parameters_of (heap (final fs)) e = Some [mkParameter "Roughness" 0 1 d] /\
    Q2R d = 0.6 /\
    0.05 < Rpower 0.05 (1 - Q2R d) < 1.
Proof.
  intros Hv. split; [|split; [|split]].
  - cbn [call]. rewrite roughness_as_power. reflexivity.
  - cbn [call]. rewrite roughness_as_power. reflexivity.
  - apply roughness_bounds. exact Hv.
  - destruct (beckmann_entry fs) as [e [He [Hn [Hf Hp]]]].
    exists e, 0.6%Q.
    assert (Q2R 0.6 = 0.6) as Hq by (unfold Q2R; simpl; lra).
    split; [exact He|]. split; [exact Hn|]. split; [exact Hf|].
    split; [exact Hp|]. split; [exact Hq|].
    apply roughness_strict. unfold Q2R. simpl. lra.
Qed.

Lemma beckmann_roughness_witness :
  @call echo beckmann_sample (points 1 0) [0.6] =
    Ok (@warp_eval echo square_to_beckmann
          [Arr (points 1 0); Num (Rpower 0.05 (1 - 0.6))]) /\
  0.05 <= Rpower 0.05 (1 - 0.6) <= 1.
Proof.
  assert (0 <= 0.6 <= 1) as Hv by lra.
  destruct (beckmann_roughness echo sample_resources (points 1 0) (points 1 0) 0.6 Hv)
    as [Hs [_ [Hb _]]].
  split; [exact Hs|exact Hb].
Defined.

Local Close Scope R_scope.

(** * Further properties *)

(** ** Squeezing a shape *)

Lemma squeeze_shape_cons (d : nat) (sh : list nat) :
  squeeze_shape (d :: sh) =
  if (d =? 1)%nat then squeeze_shape sh else d :: squeeze_shape sh.
Proof.
  unfold squeeze_shape. rewrite filter_cons.
  case_decide as H; destruct (d =? 1)%nat; simpl in H;
    try reflexivity; try contradiction; exfalso; apply H; exact I.
Qed.

Lemma squeeze_shape_nil : squeeze_shape [] = [].
Proof. reflexivity. Qed.

Lemma squeeze_shape_no_unit (sh : list nat) :
  Forall (fun d => d <> 1%nat) (squeeze_shape sh).
Proof.
  induction sh as [|d sh IH]; [constructor|].
  rewrite squeeze_shape_cons.
  destruct (d =? 1)%nat eqn:Hd; [exact IH|].
  constructor; [|exact IH]. apply Nat.eqb_neq. exact Hd.
Qed.

(** ** The conditioned builder: what fits, and which error comes first *)

(** The outcome once the four images are loaded. *)
Lemma LinearWarp2D2Test_planes fs i0 i1 i2 i3 :
  map fs conditioned_paths = [Some i0; Some i1; Some i2; Some i3] ->
  if forallb fits [i0; i1; i2; i3]
  then exists t,
      LinearWarp2D2Test fs =
        Ok (sample_functor (Linear2D2 t grid), pdf_functor (Linear2D2 t grid)) /\
      forall a b img y x,
        In (a, b, img) [(0, 0, i0); (0, 1, i1); (1, 0, i2); (1, 1, i3)]%nat ->
        item t [a; b; y; x] = plane_item img y x
  else LinearWarp2D2Test fs = Raise ValueError.
Proof.
  intros H. rewrite (LinearWarp2D2Test_loaded fs i0 i1 i2 i3 H).
  cbn [forallb]. unfold fits.
  destruct (broadcastable (shape (squeeze i0)) plane) eqn:F0; cbn [andb];
    [|rewrite set_plane_misfit; [reflexivity|reflexivity|exact F0]].
  destruct (set_plane_fits (full [2; 2; 512; 512]%nat 0%Q) 0 0 (squeeze i0) eq_refl F0)
    as [t1 [T1 [S1 [P1 K1]]]].
  rewrite T1. cbn [rbind].
  assert (skipn 2 (shape t1) = plane) as W1 by (rewrite S1; reflexivity).
  destruct (broadcastable (shape (squeeze i1)) plane) eqn:F1; cbn [andb];
    [|rewrite set_plane_misfit; [reflexivity|exact W1|exact F1]].
  destruct (set_plane_fits t1 0 1 (squeeze i1) W1 F1) as [t2 [T2 [S2 [P2 K2]]]].
  rewrite T2. cbn [rbind].
  assert (skipn 2 (shape t2) = plane) as W2 by (rewrite S2; exact W1).
  destruct (broadcastable (shape (squeeze i2)) plane) eqn:F2; cbn [andb];
    [|rewrite set_plane_misfit; [reflexivity|exact W2|exact F2]].
  destruct (set_plane_fits t2 1 0 (squeeze i2) W2 F2) as [t3 [T3 [S3 [P3 K3]]]].
  rewrite T3. cbn [rbind].
  assert (skipn 2 (shape t3) = plane) as W3 by (rewrite S3; exact W2).
  destruct (broadcastable (shape (squeeze i3)) plane) eqn:F3; cbn [andb];
    [|rewrite set_plane_misfit; [reflexivity|exact W3|exact F3]].
  destruct (set_plane_fits t3 1 1 (squeeze i3) W3 F3) as [t4 [T4 [S4 [P4 K4]]]].
  rewrite T4. cbn [rbind].
  exists t4. split; [reflexivity|].
  intros a b img y x Hin. unfold plane_item.
  destruct Hin as [E|[E|[E|[E|[]]]]]; injection E as <- <- <-.
  - rewrite K4, K3, K2 by (intros E; inversion E). apply P1.
  - rewrite K4, K3 by (intros E; inversion E). apply P2.
  - rewrite K4 by (intros E; inversion E). apply P3.
  - apply P4.
Qed.

Lemma broadcastable_rev_plane (r : list nat) :
  Forall (fun d => d <> 1%nat) r ->
  (broadcastable_rev r plane = true <-> In r plane_shapes).
Proof.
  intros Hr. unfold plane, plane_shapes.
  destruct r as [|a [|b [|c r]]]; cbn [broadcastable_rev].
  - split; [intros _; left; reflexivity|reflexivity].
  - inversion Hr as [|? ? Ha _]; subst.
    apply Nat.eqb_neq in Ha. rewrite Ha, orb_false_r, andb_true_r. split.
    + intros H. apply Nat.eqb_eq in H. subst a. right. left. reflexivity.
    + intros [H|[H|[H|[]]]]; try discriminate.
      injection H as <-. apply Nat.eqb_refl.
  - inversion Hr as [|? ? Ha Hr']; subst. inversion Hr' as [|? ? Hb _]; subst.
    apply Nat.eqb_neq in Ha. apply Nat.eqb_neq in Hb.
    rewrite Ha, Hb, !orb_false_r, andb_true_r. split.
    + intros H. apply andb_prop in H. destruct H as [H1 H2].
      apply Nat.eqb_eq in H1. apply Nat.eqb_eq in H2. subst a b.
      right. right. left. reflexivity.
    + intros [H|[H|[H|[]]]]; try discriminate.
      injection H as <- <-. rewrite !Nat.eqb_refl. reflexivity.
  - inversion Hr as [|? ? Ha Hr']; subst. inversion Hr' as [|? ? Hb Hr'']; subst.
    inversion Hr'' as [|? ? Hc _]; subst.
    apply Nat.eqb_neq in Hc. rewrite Hc. cbn [andb]. rewrite !andb_false_r. split.
    + discriminate.
    + intros [H|[H|[H|[]]]]; discriminate.
Qed.

Lemma plane_shapes_rev (sh : list nat) : In (rev sh) plane_shapes <-> In sh plane_shapes.
Proof.
  unfold plane_shapes. split.
  - intros H. rewrite <- (rev_involutive sh).
    destruct H as [<-|[<-|[<-|[]]]]; cbn; auto.
  - intros [<-|[<-|[<-|[]]]]; cbn; auto.
Qed.

Lemma fits_iff (img : ndarray Q) :
  fits img = true <-> In (squeeze_shape (shape img)) plane_shapes.
Proof.
  unfold fits, broadcastable. cbn [squeeze shape].
  change (rev plane) with plane.
  rewrite broadcastable_rev_plane.
  - apply plane_shapes_rev.
  - apply Forall_forall. intros d Hd.
    apply list_elem_of_In, in_rev in Hd.
    pose proof (squeeze_shape_no_unit (shape img)) as Hn.
    rewrite Forall_forall in Hn. apply Hn. apply list_elem_of_In. exact Hd.
Qed.

Lemma plane_item_row (img : ndarray Q) (y x : nat) :
  shape img = [1; 512; 1]%nat -> plane_item img y x = item img [0; x; 0]%nat.
Proof.
  intros H. unfold plane_item, squeeze. cbn [shape item]. rewrite H.
  rewrite !squeeze_shape_cons, squeeze_shape_nil. reflexivity.
Qed.

Lemma plane_item_column (img : ndarray Q) (y x : nat) :
  shape img = [512; 1; 1]%nat -> plane_item img y x = item img [x; 0; 0]%nat.
Proof.
  intros H. unfold plane_item, squeeze. cbn [shape item]. rewrite H.
  rewrite !squeeze_shape_cons, squeeze_shape_nil. reflexivity.
Qed.

Lemma plane_item_pixel (img : ndarray Q) (y x : nat) :
  shape img = [1; 1; 1]%nat -> plane_item img y x = item img [0; 0; 0]%nat.
Proof.
  intros H. unfold plane_item, squeeze. cbn [shape item]. rewrite H.
  rewrite !squeeze_shape_cons, squeeze_shape_nil. reflexivity.
Qed.

Lemma forallb_fits_iff (imgs : list (ndarray Q)) :
  forallb fits imgs = true <->
  Forall (fun img => In (squeeze_shape (shape img)) plane_shapes) imgs.
Proof.
  rewrite forallb_forall, Forall_forall. split.
  - intros H img Hi. apply fits_iff. apply H. apply list_elem_of_In. exact Hi.
  - intros H img Hi. apply fits_iff. apply H. apply list_elem_of_In. exact Hi.
Qed.

(** Once its four files are loaded, the conditioned builder succeeds
    exactly when each image, with its axes of length one removed, has no
    axis left, one axis of length 512, or two axes of length 512.  An image
    of one row of 512 pixels is repeated down its plane; an image of one
    column of 512 pixels is taken as a row as well, its pixel [x] ending in
    column [x] of every row; an image of one pixel fills its plane. *)
Theorem LinearWarp2D2Test_accepts (fs : resources) (i0 i1 i2 i3 : ndarray Q) :
  map fs conditioned_paths = [Some i0; Some i1; Some i2; Some i3] ->
  (is_ok (LinearWarp2D2Test fs) = true <->
   Forall (fun img => In (squeeze_shape (shape img)) plane_shapes) [i0; i1; i2; i3]) /\
  forall t a b img y x,
    LinearWarp2D2Test fs =
      Ok (sample_functor (Linear2D2 t grid), pdf_functor (Linear2D2 t grid)) ->
    In (a, b, img) [(0, 0, i0); (0, 1, i1); (1, 0, i2); (1, 1, i3)]%nat ->
    (shape img = [1; 512; 1]%nat -> item t [a; b; y; x] = item img [0; x; 0]%nat) /\
    (shape img = [512; 1; 1]%nat -> item t [a; b; y; x] = item img [x; 0; 0]%nat) /\
    (shape img = [1; 1; 1]%nat -> item t [a; b; y; x] = item img [0; 0; 0]%nat).
Proof.
  intros Hl. pose proof (LinearWarp2D2Test_planes fs i0 i1 i2 i3 Hl) as Hp.
  rewrite <- forallb_fits_iff.
  destruct (forallb fits [i0; i1; i2; i3]) eqn:Hf.
  - destruct Hp as [t' [Ht' Hitems]]. split.
    + rewrite Ht'. split; reflexivity.
    + intros t a b img y x Ht Hin. rewrite Ht' in Ht. injection Ht as <-.
      rewrite (Hitems a b img y x Hin). split; [|split]; intros Hs.
      * apply plane_item_row. exact Hs.
      * apply plane_item_column. exact Hs.
      * apply plane_item_pixel. exact Hs.
  - split.
    + rewrite Hp. split; discriminate.
    + intros t a b img y x Ht. rewrite Hp in Ht. discriminate.
Qed.

Lemma flat_images_loaded :
  map resources_flat_img3 conditioned_paths =
    [Some (image 512 512 1 1); Some (image 512 512 1 2);
     Some (image 512 512 1 3); Some (image 1 512 1 4)].
Proof. vm_compute. reflexivity. Defined.

Lemma LinearWarp2D2Test_accepts_witness :
  is_ok (LinearWarp2D2Test resources_flat_img3) = true.
Proof.
  apply (proj1 (LinearWarp2D2Test_accepts resources_flat_img3 _ _ _ _ flat_images_loaded)).
  repeat constructor; vm_compute; tauto.
Defined.

(** The four files are loaded before anything is written into the
    tensor: when one is missing, the builder raises for the first missing
    one in the order [img0], [img1], [img2], [img3], whatever the shapes of
    the others are; a ValueError is raised only when all four are loaded
    and one of them does not fit. *)
Theorem LinearWarp2D2Test_first_missing (fs : resources) :
  (forall k p,
      conditioned_paths !! k = Some p ->
      fs p = None ->
      (forall j q, (j < k)%nat -> conditioned_paths !! j = Some q -> fs q <> None) ->
      LinearWarp2D2Test fs = Raise (RuntimeError p)) /\
  (LinearWarp2D2Test fs = Raise ValueError ->
   exists i0 i1 i2 i3,
     map fs conditioned_paths = [Some i0; Some i1; Some i2; Some i3] /\
     forallb fits [i0; i1; i2; i3] = false).
Proof.
  split.
  - intros k p Hk Hp Hbefore.
    unfold LinearWarp2D2Test, Bitmap.
    destruct k as [|[|[|[|k]]]]; cbv [conditioned_paths lookup list_lookup] in Hk;
      try discriminate; injection Hk as <-.
    + rewrite Hp. reflexivity.
    + destruct (fs (prefix ++ "img0.png")%string) eqn:E0;
        [|exfalso; exact (Hbefore 0%nat _ ltac:(lia) eq_refl E0)].
      rewrite Hp. reflexivity.
    + destruct (fs (prefix ++ "img0.png")%string) eqn:E0;
        [|exfalso; exact (Hbefore 0%nat _ ltac:(lia) eq_refl E0)].
      destruct (fs (prefix ++ "img1.png")%string) eqn:E1;
        [|exfalso; exact (Hbefore 1%nat _ ltac:(lia) eq_refl E1)].
      rewrite Hp. reflexivity.
    + destruct (fs (prefix ++ "img0.png")%string) eqn:E0;
        [|exfalso; exact (Hbefore 0%nat _ ltac:(lia) eq_refl E0)].
      destruct (fs (prefix ++ "img1.png")%string) eqn:E1;
        [|exfalso; exact (Hbefore 1%nat _ ltac:(lia) eq_refl E1)].
      destruct (fs (prefix ++ "img2.png")%string) eqn:E2;
        [|exfalso; exact (Hbefore 2%nat _ ltac:(lia) eq_refl E2)].
      rewrite Hp. reflexivity.
  - intros Hv.
    destruct (fs (prefix ++ "img0.png")%string) as [i0|] eqn:E0;
      [|unfold LinearWarp2D2Test, Bitmap in Hv; rewrite E0 in Hv; discriminate].
    destruct (fs (prefix ++ "img1.png")%string) as [i1|] eqn:E1;
      [|unfold LinearWarp2D2Test, Bitmap in Hv; rewrite E0, E1 in Hv; discriminate].
    destruct (fs (prefix ++ "img2.png")%string) as [i2|] eqn:E2;
      [|unfold LinearWarp2D2Test, Bitmap in Hv; rewrite E0, E1, E2 in Hv; discriminate].
    destruct (fs (prefix ++ "img3.png")%string) as [i3|] eqn:E3;
      [|unfold LinearWarp2D2Test, Bitmap in Hv; rewrite E0, E1, E2, E3 in Hv;
        discriminate].
    assert (map fs conditioned_paths = [Some i0; Some i1; Some i2; Some i3]) as Hl
        by (cbv [conditioned_paths map]; rewrite E0, E1, E2, E3; reflexivity).
    exists i0, i1, i2, i3. split; [exact Hl|].
    pose proof (LinearWarp2D2Test_planes fs i0 i1 i2 i3 Hl) as Hp.
    destruct (forallb fits [i0; i1; i2; i3]); [|reflexivity].
    destruct Hp as [t [Ht _]]. rewrite Ht in Hv. discriminate.
Qed.

(** [img0.png] is missing: it is the one reported. *)
Lemma LinearWarp2D2Test_first_missing_witness :
  LinearWarp2D2Test resources_without_img0 =
    Raise (RuntimeError "resources/data/tests/warp/img0.png").
Proof.
  apply (proj1 (LinearWarp2D2Test_first_missing resources_without_img0) 0%nat).
  - reflexivity.
  - vm_compute. reflexivity.
  - intros j q Hj. lia.
Defined.

(** ** When the import succeeds *)

Lemma statements_both_ok f0 f2 :
  fst (statements (Ok f0) (Ok f2) initial_state) = Ok tt /\
  length (table_of (snd (statements (Ok f0) (Ok f2) initial_state))) = 35%nat /\
  firstn 33 (table_of (snd (statements (Ok f0) (Ok f2) initial_state)))
    = registry no_resources.
Proof.
  destruct f0 as [s0 p0], f2 as [s2 p2].
  split; [vm_compute; reflexivity|]. split; vm_compute; reflexivity.
Qed.

Lemma import_of_statements fs b0 b2 :
  LinearWarp2D0Test fs = b0 ->
  LinearWarp2D2Test fs = b2 ->
  import_DISTRIBUTIONS fs =
    match statements b0 b2 initial_state with
    | (Ok _, g) => match DISTRIBUTIONS g with
                   | Some es => Ok es
                   | None => Raise NameError
                   end
    | (Raise e, _) => Raise e
    end /\
  registry fs = table_of (snd (statements b0 b2 initial_state)).
Proof.
  intros <- <-. unfold import_DISTRIBUTIONS, registry, final, exec_module, distr.
  split; reflexivity.
Qed.

Lemma import_when_raised fs b0 b2 e :
  LinearWarp2D0Test fs = b0 ->
  LinearWarp2D2Test fs = b2 ->
  b0 = Raise e \/ (is_ok b0 = true /\ b2 = Raise e) ->
  import_DISTRIBUTIONS fs = Raise e /\ registry fs = registry no_resources.
Proof.
  intros H0 H2 Hr.
  destruct (import_of_statements fs b0 b2 H0 H2) as [Hi Hreg].
  destruct (statements_raise b0 b2 e Hr) as [Hf Ht].
  rewrite Hi, Hreg. split; [|exact Ht].
  destruct (statements b0 b2 initial_state) as [r g]. simpl in Hf. subst r.
  reflexivity.
Qed.

Lemma import_when_built fs f0 f2 :
  LinearWarp2D0Test fs = Ok f0 ->
  LinearWarp2D2Test fs = Ok f2 ->
  exists es, import_DISTRIBUTIONS fs = Ok es /\ length es = 35%nat /\
             firstn 33 es = registry no_resources.
Proof.
  intros H0 H2.
  destruct (import_of_statements fs _ _ H0 H2) as [Hi _].
  destruct (statements_both_ok f0 f2) as [Hf [Hlen Hpre]].
  rewrite Hi.
  destruct (statements (Ok f0) (Ok f2) initial_state) as [r g].
  simpl in Hf, Hlen, Hpre. subst r. unfold table_of in Hlen, Hpre.
  destruct (DISTRIBUTIONS g) as [es|]; [|simpl in Hlen; discriminate Hlen].
  exists es. split; [reflexivity|]. split; [exact Hlen|exact Hpre].
Qed.

(** Importing the table needs its resources.  Unless [small.png] and the
    four conditioned images can be loaded and each of the four fits a
    plane, the import raises, and the table reached is the static one.  So
    an import that succeeds has found all five files, the four conditioned
    ones fitting; its table has 35 entries, and the first 33 are those of
    the static table. *)
Theorem import_requires_resources (fs : resources) :
  (loadable fs = false ->
   exists e, import_DISTRIBUTIONS fs = Raise e /\
             registry fs = registry no_resources) /\
  (forall es, import_DISTRIBUTIONS fs = Ok es ->
              loadable fs = true /\ length es = 35%nat /\
              firstn 33 es = registry no_resources).
Proof.
  assert (loadable fs = false ->
          exists e, import_DISTRIBUTIONS fs = Raise e /\
                    registry fs = registry no_resources) as Hfail.
  { unfold loadable.
    destruct (fs small_path) as [img|] eqn:Es.
    - assert (exists f0, LinearWarp2D0Test fs = Ok f0) as [f0 H0].
      { unfold LinearWarp2D0Test, Bitmap. fold small_path. rewrite Es.
        eexists. reflexivity. }
      cbv [conditioned_paths map].
      destruct (fs (prefix ++ "img0.png")%string) as [i0|] eqn:E0.
      2:{ intros _. exists (RuntimeError (prefix ++ "img0.png")).
          apply (import_when_raised fs _ _ _ H0 eq_refl). right.
          split; [reflexivity|]. unfold LinearWarp2D2Test, Bitmap. rewrite E0.
          reflexivity. }
      destruct (fs (prefix ++ "img1.png")%string) as [i1|] eqn:E1.
      2:{ intros _. exists (RuntimeError (prefix ++ "img1.png")).
          apply (import_when_raised fs _ _ _ H0 eq_refl). right.
          split; [reflexivity|]. unfold LinearWarp2D2Test, Bitmap. rewrite E0, E1.
          reflexivity. }
      destruct (fs (prefix ++ "img2.png")%string) as [i2|] eqn:E2.
      2:{ intros _. exists (RuntimeError (prefix ++ "img2.png")).
          apply (import_when_raised fs _ _ _ H0 eq_refl). right.
          split; [reflexivity|]. unfold LinearWarp2D2Test, Bitmap. rewrite E0, E1, E2.
          reflexivity. }
      destruct (fs (prefix ++ "img3.png")%string) as [i3|] eqn:E3.
      2:{ intros _. exists (RuntimeError (prefix ++ "img3.png")).
          apply (import_when_raised fs _ _ _ H0 eq_refl). right.
          split; [reflexivity|]. unfold LinearWarp2D2Test, Bitmap.
          rewrite E0, E1, E2, E3. reflexivity. }
      assert (map fs conditioned_paths = [Some i0; Some i1; Some i2; Some i3]) as Hl
          by (cbv [conditioned_paths map]; rewrite E0, E1, E2, E3; reflexivity).
      pose proof (LinearWarp2D2Test_planes fs i0 i1 i2 i3 Hl) as Hp.
      intros Hf. rewrite Hf in Hp.
      exists ValueError. apply (import_when_raised fs _ _ _ H0 Hp). right.
      split; reflexivity.
    - intros _. exists (RuntimeError small_path).
      apply (import_when_raised fs _ (LinearWarp2D2Test fs) _ eq_refl eq_refl). left.
      unfold LinearWarp2D0Test, Bitmap. fold small_path. rewrite Es. reflexivity. }
  split; [exact Hfail|].
  intros es Hok.
  assert (loadable fs = true) as Hl.
  { destruct (loadable fs); [reflexivity|].
    destruct (Hfail eq_refl) as [e [He _]]. rewrite He in Hok. discriminate Hok. }
  split; [exact Hl|].
  destruct (LinearWarp2D0Test fs) as [f0|e0] eqn:E0.
  2:{ destruct (import_when_raised fs _ (LinearWarp2D2Test fs) e0 E0 eq_refl
                  (or_introl eq_refl)) as [Hr _].
      rewrite Hr in Hok. discriminate Hok. }
  destruct (LinearWarp2D2Test fs) as [f2|e2] eqn:E2.
  2:{ destruct (import_when_raised fs _ _ e2 E0 E2 (or_intror (conj eq_refl eq_refl)))
        as [Hr _].
      rewrite Hr in Hok. discriminate Hok. }
  destruct (import_when_built fs f0 f2 E0 E2) as [es' [Hes' Hrest]].
  rewrite Hes' in Hok. injection Hok as <-. exact Hrest.
Qed.

Lemma import_requires_resources_witness :
  (exists e, import_DISTRIBUTIONS resources_256 = Raise e) /\
  loadable sample_resources = true /\
  length (registry sample_resources) = 35%nat.
Proof.
  split.
  - destruct (proj1 (import_requires_resources resources_256)) as [e [He _]].
    + vm_compute. reflexivity.
    + exists e. exact He.
  - destruct (proj2 (import_requires_resources sample_resources) _ sample_import)
      as [Hl [Hlen _]].
    split; [exact Hl|exact Hlen].
Defined.

(** ** The templates after the table is built *)

Lemma templates_intact_b_true fs : templates_intact_b (final fs) = true.
Proof. revert fs. run_module templates_intact_b. Qed.

Lemma is_empty_list_sound s v :
  is_empty_list s v = true ->
  exists p, v = Some (VRef p) /\ objects s !! p = Some (OList []).
Proof.
  unfold is_empty_list. destruct v as [[| | | |p]|]; try discriminate.
  destruct (objects s !! p) as [[d|[|x vs]]|] eqn:Hp; try discriminate.
  intros _. exists p. split; [reflexivity|exact Hp].
Qed.

Lemma template_holds_b_sound s t dim :
  template_holds_b s t dim = true -> template_holds s t dim.
Proof.
  unfold template_holds_b, template_holds.
  destruct (objects s !! t) as [[d|]|]; try discriminate.
  intros H.
  apply andb_prop in H. destruct H as [H Hp].
  apply andb_prop in H. destruct H as [H Hres].
  apply andb_prop in H. destruct H as [H Hires].
  apply andb_prop in H. destruct H as [Hsize Hdim].
  destruct (is_empty_list_sound s _ Hp) as [p [Href Hlist]].
  exists d, p. split; [reflexivity|]. split; [apply Nat.eqb_eq; exact Hsize|].
  split; [apply same_item_sound; exact Hdim|].
  split; [apply same_item_sound; exact Hires|].
  split; [apply same_item_sound; exact Hres|].
  split; [exact Href|exact Hlist].
Qed.

(** Building the table leaves the two templates as their literals define
    them, whatever the resources and whether or not a builder fails: two
    distinct dicts of four items, with [sample_dim] 2 and 3, [ires] 10,
    [res] 101, and two distinct lists of parameters, both still empty. *)
Theorem templates_intact (fs : resources) :
  exists t t3,
    DEFAULT_SETTINGS (final fs) = Some t /\
    DEFAULT_SETTINGS_3 (final fs) = Some t3 /\
    t <> t3 /\
    template_holds (heap (final fs)) t 2 /\
    template_holds (heap (final fs)) t3 3 /\
    parameters_ref (final fs) t <> parameters_ref (final fs) t3.
Proof.
  pose proof (templates_intact_b_true fs) as H. unfold templates_intact_b in H.
  destruct (DEFAULT_SETTINGS (final fs)) as [t|]; [|discriminate].
  destruct (DEFAULT_SETTINGS_3 (final fs)) as [t3|]; [|discriminate].
  apply andb_prop in H. destruct H as [H Hrefs].
  apply andb_prop in H. destruct H as [H H3].
  apply andb_prop in H. destruct H as [Hne H2].
  exists t, t3. split; [reflexivity|]. split; [reflexivity|].
  split.
  { intros ->. rewrite Pos.eqb_refl in Hne. discriminate Hne. }
  split; [apply template_holds_b_sound; exact H2|].
  split; [apply template_holds_b_sound; exact H3|].
  intros Heq. rewrite Heq in Hrefs.
  destruct (parameters_ref (final fs) t3) as [q|]; cbn [opt_loc_eqb] in Hrefs.
  - rewrite Pos.eqb_refl in Hrefs. discriminate Hrefs.
  - discriminate Hrefs.
Qed.

(** ** Entries without parameters share the list of a template *)

Lemma sharing_b_true fs : sharing_b (final fs) = true.
Proof. revert fs. run_module sharing_b. Qed.

Lemma opt_loc_eqb_sound a b : opt_loc_eqb a b = true -> a = b.
Proof.
  destruct a as [x|], b as [y|]; simpl; try discriminate; [|reflexivity].
  intros H. apply Pos.eqb_eq in H. congruence.
Qed.

Lemma parameters_shared_b_iff g e :
  parameters_shared_b g e = true <-> parameters_shared g e.
Proof.
  unfold parameters_shared_b, parameters_shared. split.
  - destruct (parameters_ref g (settings e)) as [p|]; [|discriminate].
    intros H. apply existsb_exists in H. destruct H as [t [Ht Heq]].
    exists t, p. split; [apply in_templates; exact Ht|].
    split; [apply opt_loc_eqb_sound; exact Heq|reflexivity].
  - intros [t [p [Ht [Hp He]]]]. rewrite He.
    apply existsb_exists. exists t. split; [apply is_template_in; exact Ht|].
    rewrite Hp. simpl. apply Pos.eqb_refl.
Qed.

Lemma declares_none_b_iff s e :
  declares_none_b s e = true <-> parameters_of s e = Some [].
Proof.
  unfold declares_none_b.
  destruct (parameters_of s e) as [[|p ps]|]; split; intros H;
    try reflexivity; try discriminate.
Qed.

(** The copies made by [dict(template, ...)] are shallow.  For every
    entry of the table, the ['parameters'] list is the very list object of
    a template exactly when the entry declares no parameter: all such
    entries, those with a dict of their own included, hold one of the two
    empty lists of the templates, and every entry that declares parameters
    holds another list. *)
Theorem parameters_list_shared_iff_empty (fs : resources) :
  Forall (fun e => parameters_shared (final fs) e <->
                   parameters_of (heap (final fs)) e = Some [])
         (registry fs).
Proof.
  rewrite registry_table_of. apply Forall_forall. intros e He.
  pose proof (sharing_b_true fs) as H. unfold sharing_b in H.
  rewrite forallb_forall in H.
  specialize (H e (proj1 (list_elem_of_In _ _) He)).
  apply Bool.eqb_prop in H.
  rewrite <- parameters_shared_b_iff, <- declares_none_b_iff, H. reflexivity.
Qed.

(** ** Declarations of parameters *)

Lemma declarations_b_true fs : declarations_b (final fs) = true.
Proof. revert fs. run_module declarations_b. Qed.

Lemma well_declared_b_sound s e : well_declared_b s e = true -> well_declared s e.
Proof.
  unfold well_declared_b, well_declared.
  destruct (parameters_of s e) as [ps|]; [|discriminate].
  intros H. apply andb_prop in H. destruct H as [Hn Hr].
  exists ps. split; [reflexivity|]. split.
  - exact (bool_decide_eq_true_1 _ Hn).
  - apply Forall_forall. intros p Hp.
    rewrite forallb_forall in Hr.
    specialize (Hr p (proj1 (list_elem_of_In _ _) Hp)).
    apply Qnot_le_lt. intros Hle. apply Qle_bool_iff in Hle.
    rewrite Hle in Hr. discriminate.
Qed.

(** For every entry of the table, the labels of the declared parameters
    are pairwise distinct, and the range of each parameter is a proper
    interval: its minimum lies strictly below its maximum. *)
Theorem parameters_well_declared (fs : resources) :
  Forall (well_declared (heap (final fs))) (registry fs).
Proof.
  rewrite registry_table_of. apply Forall_forall. intros e He.
  apply well_declared_b_sound.
  pose proof (declarations_b_true fs) as H. unfold declarations_b in H.
  rewrite forallb_forall in H. apply H. apply list_elem_of_In. exact He.
Qed.

(** ** Resolutions *)

Lemma resolutions_b_true fs : resolutions_b (final fs) = true.
Proof. revert fs. run_module resolutions_b. Qed.

(** The override [res=100] of 'Uniform triangle' is read through that
    entry alone: every other entry of the table, built before it or after
    it, reads [res] 101, and every entry reads [ires] 10. *)
Theorem resolution_override_confined (fs : resources) :
  Forall (resolutions (heap (final fs))) (registry fs).
Proof.
  rewrite registry_table_of. apply Forall_forall. intros e He.
  pose proof (resolutions_b_true fs) as H. unfold resolutions_b in H.
  rewrite forallb_forall in H.
  specialize (H e (proj1 (list_elem_of_In _ _) He)).
  apply andb_prop in H. destruct H as [Hi Hr].
  split; apply same_item_sound; assumption.
Qed.

(** ** Domains *)

Lemma domains_b_true fs : domains_b (final fs) = true.
Proof. revert fs. run_module domains_b. Qed.

Lemma domain_well_formed_b_sound d :
  domain_well_formed_b d = true -> domain_well_formed d.
Proof.
  destruct d as [[b|]| |b]; simpl; try (intros; exact I).
  - destruct b as [|[|a [|b' [|? ?]]] [|[|c [|d' [|? ?]]] [|? ?]]]; try discriminate.
    intros H. apply andb_prop in H. destruct H as [H1 H2].
    split; apply Z.ltb_lt; assumption.
  - destruct b as [|a [|b' [|? ?]]]; try discriminate.
    intros H. apply Qnot_le_lt. intros Hle. apply Qle_bool_iff in Hle.
    rewrite Hle in H. discriminate.
Qed.

(** Every domain of the table is well formed: a planar domain has no
    bounds or a rectangle of two intervals, a line domain one interval, and
    each interval has its lower end strictly below its upper end.  The
    planar domain without bounds, the unit disk, is used by
    'Uniform disk' and 'Uniform disk (concentric)' and by no other entry. *)
Theorem domains_well_formed (fs : resources) :
  Forall (fun e => domain_well_formed (domain_of e) /\
                   (domain_of e = PlanarDomain None <-> on_disk e = true))
         (registry fs).
Proof.
  rewrite registry_table_of. apply Forall_forall. intros e He.
  pose proof (domains_b_true fs) as H. unfold domains_b in H.
  rewrite forallb_forall in H.
  specialize (H e (proj1 (list_elem_of_In _ _) He)).
  apply andb_prop in H. destruct H as [Hw Hd].
  split; [apply domain_well_formed_b_sound; exact Hw|].
  apply Bool.eqb_prop in Hd. rewrite <- Hd.
  destruct (domain_of e) as [[b|]| |b]; simpl; split; intros H;
    try reflexivity; try discriminate.
Qed.

(** ** Incident directions *)

Lemma directions_b_true fs : directions_b (final fs) = true.
Proof. revert fs. run_module directions_b. Qed.

Lemma Qle_bool_false_lt (a b : Q) : negb (Qle_bool a b) = true -> (b < a)%Q.
Proof.
  intros H. apply Qnot_le_lt. intros Hle. apply Qle_bool_iff in Hle.
  rewrite Hle in H. discriminate.
Qed.

Lemma unit_upward_b_sound wi : unit_upward_b wi = true -> unit_upward wi.
Proof.
  destruct wi as [|x [|y [|z [|? ?]]]]; try discriminate.
  unfold unit_upward_b, unit_upward. intros H.
  apply andb_prop in H. destruct H as [H Hz].
  apply andb_prop in H. destruct H as [Hlo Hhi].
  split; [apply Qle_bool_false_lt; exact Hlo|].
  split; [apply Qle_bool_false_lt; exact Hhi|].
  apply Qle_bool_false_lt. exact Hz.
Qed.

(** Every incident direction [wi] that the table fixes for a BSDF adapter
    has three components, has length one up to the six digits it is
    written with (its squared length is within 1e-6 of 1), and lies on the
    upper side of the surface (a positive third component). *)
Theorem incident_directions_unit (fs : resources) :
  Forall (fun e => forall wi, wi_of (funcs e) = Some wi -> unit_upward wi)
         (registry fs).
Proof.
  rewrite registry_table_of. apply Forall_forall. intros e He wi Hwi.
  pose proof (directions_b_true fs) as H. unfold directions_b in H.
  rewrite forallb_forall in H.
  specialize (H e (proj1 (list_elem_of_In _ _) He)).
  rewrite Hwi in H. apply unit_upward_b_sound. exact H.
Qed.

(** ** Format strings of the spectra *)

Lemma placeholders_b_true fs : placeholders_b (final fs) = true.
Proof. revert fs. run_module placeholders_b. Qed.

(** In every entry whose functions are a [SpectrumAdapter], the snippet
    has as many [%] conversions as the settings declare parameters: none
    for 'Spectrum: test' and 'Spectrum: d65', and the one [%f] of
    'Spectrum: blackbody' for its temperature. *)
Theorem spectrum_conversions_match (fs : resources) :
  Forall (fun e => forall value,
              funcs e = SpectrumAdapter value ->
              exists ps, parameters_of (heap (final fs)) e = Some ps /\
                         conversions value = length ps)
         (registry fs).
Proof.
  rewrite registry_table_of. apply Forall_forall. intros e He value Hf.
  pose proof (placeholders_b_true fs) as H. unfold placeholders_b in H.
  rewrite forallb_forall in H.
  specialize (H e (proj1 (list_elem_of_In _ _) He)).
  rewrite Hf in H. cbn [spectrum_of] in H.
  destruct (parameters_of (heap (final fs)) e) as [ps|]; [|discriminate].
  exists ps. split; [reflexivity|]. apply Nat.eqb_eq. exact H.
Qed.

(** ** Inputs without axes *)

Local Open Scope R_scope.


(** On an input without axes, [x.shape[0]] fails: the density of 'Uniform
    square' and both lambdas of 'Rough fiber distribution' raise an
    IndexError, and the warp is not called; the sample function of 'Uniform
    square', which does not look at the shape, returns its input.  A wrong
    number of arguments is reported first, as a TypeError. *)
Theorem input_without_axes (E : Externals) (x : ndarray R) :
  shape x = [] ->
  call uniform_square_sample x [] = Ok x /\
  call uniform_square_pdf x [] = Raise IndexError /\
  (forall kappa incl,
      call rough_fiber_sample x [kappa; incl] = Raise IndexError /\
      call rough_fiber_pdf x [kappa; incl] = Raise IndexError) /\
  (forall a args, call uniform_square_pdf x (a :: args) = Raise TypeError) /\
  (forall a, call rough_fiber_sample x [a] = Raise TypeError /\
             call rough_fiber_pdf x [a] = Raise TypeError).
Proof.
  intros Hx.
  split; [reflexivity|].
  split; [cbn [call]; unfold shape0; rewrite Hx; reflexivity|].
  split; [|split].
  - intros kappa incl.
    split; cbn [call]; unfold shape0; rewrite Hx; reflexivity.
  - intros a args. reflexivity.
  - intros a. split; reflexivity.
Qed.

Lemma input_without_axes_witness :
  @call echo uniform_square_pdf (scalar_array 2) [] = Raise IndexError /\
  @call echo uniform_square_sample (scalar_array 2) [] = Ok (scalar_array 2).
Proof.
  destruct (input_without_axes echo (scalar_array 2) eq_refl) as [Hs [Hp _]].
  split; [exact Hp|exact Hs].
Defined.

Local Close Scope R_scope.

(** ** Who holds a template *)

Lemma holders_b_true fs : holders_b (final fs) = true.
Proof. revert fs. run_module holders_b. Qed.

(** The table makes no copy that reads like a template.  An entry that
    reads the [sample_dim] of a template, [res] 101 and no parameter holds
    that template itself; so an item assigned through such an entry is the
    item then read through the template. *)
Theorem template_read_is_template_held (fs : resources) (e : entry) (t : loc) (dim : Z) :
  In e (registry fs) ->
  is_template (final fs) t ->
  template_holds (heap (final fs)) t dim ->
  sample_dim_of (heap (final fs)) e = Some dim ->
  dict_getitem (settings e) "res" (heap (final fs)) = Some (VInt 101) ->
  parameters_of (heap (final fs)) e = Some [] ->
  settings e = t /\
  forall k v s',
    dict_setitem (settings e) k v (heap (final fs)) = Ok s' ->
    dict_getitem t k s' = Some v.
Proof.
  intros He Ht Hh Hdim Hres Hps.
  assert (settings e = t) as Heq.
  { pose proof (holders_b_true fs) as H. unfold holders_b in H.
    rewrite forallb_forall in H. rewrite registry_table_of in He.
    specialize (H e He). rewrite forallb_forall in H.
    specialize (H t (is_template_in _ t Ht)).
    destruct Hh as [d [p [Hd [_ [Hsd _]]]]].
    unfold reads_like_b in H. unfold dict_getitem at 1 in H.
    rewrite Hd, Hsd, Hdim, Hres in H.
    rewrite (proj2 (declares_none_b_iff _ e) Hps) in H.
    cbn [opt_Z_eqb same_item] in H. rewrite !Z.eqb_refl in H. cbn [andb implb] in H.
    apply Pos.eqb_eq. exact H. }
  split; [exact Heq|].
  intros k v s' Hset. rewrite Heq in Hset.
  unfold dict_setitem in Hset. unfold dict_getitem.
  destruct (objects (heap (final fs)) !! t) as [[d|vs]|]; try discriminate Hset.
  injection Hset as <-. cbn [objects].
  rewrite lookup_insert_eq. apply lookup_insert_eq.
Qed.

Lemma tent_in_table :
  In (mkEntry "Tent function" (PlanarDomain (Some [[-1; 1]; [-1; 1]]%Z))
        (Pair (warp square_to_tent) (warp square_to_tent_pdf)) 2%positive)
     (registry sample_resources).
Proof. apply (nth_error_In _ 2). vm_compute. reflexivity. Defined.

Lemma first_template_holds :
  template_holds (heap (final sample_resources)) 2 2.
Proof. apply template_holds_b_sound. vm_compute. reflexivity. Defined.

(** 'Tent function' holds [DEFAULT_SETTINGS] itself. *)
Lemma template_read_is_template_held_witness :
  exists s',
    dict_setitem 2 "res" (VInt 7) (heap (final sample_resources)) = Ok s' /\
    dict_getitem 2 "res" s' = Some (VInt 7).
Proof.
  assert (is_ok (dict_setitem 2 "res" (VInt 7) (heap (final sample_resources))) = true)
    as Hok by (vm_compute; reflexivity).
  destruct (ok_of _ Hok) as [s' Hs].
  exists s'. split; [exact Hs|].
  refine (proj2 (template_read_is_template_held sample_resources _ 2%positive 2%Z
                   tent_in_table _ first_template_holds _ _ _) "res" (VInt 7) s' Hs).
  - left. vm_compute. reflexivity.
  - vm_compute. reflexivity.
  - vm_compute. reflexivity.
  - vm_compute. reflexivity.
Defined.

(** ** Sample functions and their densities *)

Lemma companions_b_true fs : companions_b (final fs) = true.
Proof.
  revert fs. apply (checked_for_all_functors companions_b).
  - intros d0 d2. vm_compute. reflexivity.
  - intros [s0 p0] e. vm_compute. reflexivity.
  - intros e [[s2 p2]|e2]; vm_compute; reflexivity.
Qed.

(** In every entry whose two functions are functions of the warp module
    put in the table as they are, the first is a sample function and the
    second is its own density, the function of the same name with [_pdf]
    appended. *)
Theorem warp_functions_paired (fs : resources) :
  Forall (fun e => forall f h,
              funcs e = Pair (warp f) (warp h) ->
              is_pdf f = false /\ h = pdf_of f)
         (registry fs).
Proof.
  rewrite registry_table_of. apply Forall_forall. intros e He f h Hf.
  pose proof (companions_b_true fs) as H. unfold companions_b in H.
  rewrite forallb_forall in H.
  specialize (H e (proj1 (list_elem_of_In _ _) He)).
  rewrite Hf in H. apply andb_prop in H. destruct H as [Hp Hc].
  split.
  - destruct (is_pdf f); [discriminate Hp|reflexivity].
  - exact (bool_decide_eq_true_1 _ Hc).
Qed.

Lemma warp_functions_paired_witness :
  is_pdf square_to_tent = false /\ square_to_tent_pdf = pdf_of square_to_tent.
Proof.
  pose proof (warp_functions_paired sample_resources) as H.
  rewrite Forall_forall in H.
  exact (H _ (proj2 (list_elem_of_In _ _) tent_in_table) _ _ eq_refl).
Defined.

(** ** The parameters of the conditioned entry and its grid *)

Lemma LinearWarp2D2Test_ok_grid fs f :
  LinearWarp2D2Test fs = Ok f ->
  exists t, f = (sample_functor (Linear2D2 t grid), pdf_functor (Linear2D2 t grid)).
Proof.
  unfold LinearWarp2D2Test.
  destruct (Bitmap fs (prefix ++ "img0.png")) as [i0|]; cbn [rbind]; [|discriminate].
  destruct (Bitmap fs (prefix ++ "img1.png")) as [i1|]; cbn [rbind]; [|discriminate].
  destruct (Bitmap fs (prefix ++ "img2.png")) as [i2|]; cbn [rbind]; [|discriminate].
  destruct (Bitmap fs (prefix ++ "img3.png")) as [i3|]; cbn [rbind]; [|discriminate].
  destruct (set_plane _ 0 0 (squeeze i0)) as [t1|]; cbn [rbind]; [|discriminate].
  destruct (set_plane t1 0 1 (squeeze i1)) as [t2|]; cbn [rbind]; [|discriminate].
  destruct (set_plane t2 1 0 (squeeze i2)) as [t3|]; cbn [rbind]; [|discriminate].
  destruct (set_plane t3 1 1 (squeeze i3)) as [t4|]; cbn [rbind]; [|discriminate].
  intros H. injection H as <-. exists t4. reflexivity.
Qed.

Lemma big_entry_of_statements f0 f2 :
  nth_error (table_of (snd (statements (Ok f0) (Ok f2) initial_state))) 34 =
    Some (mkEntry "Hierarchical warp (4D, big)" unit_square
            (Pair (fst f2) (snd f2)) 51%positive) /\
  declared_ranges (heap (snd (statements (Ok f0) (Ok f2) initial_state)))
    (mkEntry "Hierarchical warp (4D, big)" unit_square
       (Pair (fst f2) (snd f2)) 51%positive)
  = Some [[0; 1]; [0; 1]]%Q.
Proof.
  destruct f0 as [s0 p0], f2 as [s2 p2].
  split; vm_compute; reflexivity.
Qed.

(** When the import succeeds, the entry 'Hierarchical warp (4D, big)'
    declares two parameters whose ranges, [0, 1] and [0, 1], are the two
    intervals of the grid [[0, 1], [0, 1]] that its builder handed to
    [Linear2D2], in the same order. *)
Theorem conditioned_ranges_match_grid (fs : resources) (es : list entry) :
  import_DISTRIBUTIONS fs = Ok es ->
  exists e rs,
    In e es /\ name e = "Hierarchical warp (4D, big)" /\
    grid_of (funcs e) = Some rs /\
    declared_ranges (heap (final fs)) e = Some rs /\
    rs = [[0; 1]; [0; 1]]%Q.
Proof.
  intros H.
  destruct (LinearWarp2D0Test fs) as [f0|e0] eqn:E0.
  2:{ destruct (import_when_raised fs _ (LinearWarp2D2Test fs) e0 E0 eq_refl
                  (or_introl eq_refl)) as [Hr _].
      rewrite Hr in H. discriminate H. }
  destruct (LinearWarp2D2Test fs) as [f2|e2] eqn:E2.
  2:{ destruct (import_when_raised fs _ _ e2 E0 E2 (or_intror (conj eq_refl eq_refl)))
        as [Hr _].
      rewrite Hr in H. discriminate H. }
  destruct (LinearWarp2D2Test_ok_grid fs f2 E2) as [t Hf2].
  destruct (import_of_statements fs _ _ E0 E2) as [Hi _].
  destruct (big_entry_of_statements f0 f2) as [Hnth Hranges].
  assert (heap (final fs) = heap (snd (statements (Ok f0) (Ok f2) initial_state)))
    as Hheap by (unfold final, exec_module, distr; rewrite E0, E2; reflexivity).
  rewrite Hheap. rewrite Hi in H.
  destruct (statements (Ok f0) (Ok f2) initial_state) as [r g].
  cbn [snd] in Hnth, Hranges |- *. unfold table_of in Hnth.
  destruct r as [u|e]; [|discriminate H].
  destruct (DISTRIBUTIONS g) as [es'|]; [|discriminate H].
  injection H as <-. cbn [default] in Hnth.
  eexists. exists [[0; 1]; [0; 1]]%Q.
  split; [exact (nth_error_In _ _ Hnth)|].
  split; [reflexivity|]. split.
  - rewrite Hf2. reflexivity.
  - split; [exact Hranges|reflexivity].
Qed.

Lemma conditioned_ranges_match_grid_witness :
  exists e rs,
    In e (registry sample_resources) /\ name e = "Hierarchical warp (4D, big)" /\
    grid_of (funcs e) = Some rs /\
    declared_ranges (heap (final sample_resources)) e = Some rs /\
    rs = [[0; 1]; [0; 1]]%Q.
Proof.
  exact (conditioned_ranges_match_grid sample_resources _ sample_import).
Defined.

(** ** Instances on the full table *)

Lemma alternative_wi_in_table :
  exists e,
    In e (registry sample_resources) /\
    name e = "Rough conductor BSDF - rough - alternative wi" /\
    wi_of (funcs e) = Some [0.970942; 0; 0.239316]%Q.
Proof.
  destruct (nth_error (registry sample_resources) 26) as [e|] eqn:He.
  - exists e. split; [exact (nth_error_In _ _ He)|].
    vm_compute in He. injection He as <-. split; reflexivity.
  - vm_compute in He. discriminate He.
Defined.

Lemma incident_directions_unit_witness :
  unit_upward [0.970942; 0; 0.239316]%Q.
Proof.
  destruct alternative_wi_in_table as [e [He [_ Hwi]]].
  pose proof (incident_directions_unit sample_resources) as H.
  rewrite Forall_forall in H.
  exact (H e (proj2 (list_elem_of_In _ _) He) _ Hwi).
Defined.

Lemma blackbody_in_table :
  exists e value,
    In e (registry sample_resources) /\ name e = "Spectrum: blackbody" /\
    funcs e = SpectrumAdapter value /\ conversions value = 1%nat.
Proof.
  destruct (nth_error (registry sample_resources) 14) as [e|] eqn:He.
  - vm_compute in He. injection He as <-.
    eexists. eexists. split; [apply (nth_error_In _ 14); vm_compute; reflexivity|].
    split; [reflexivity|]. split; [reflexivity|]. vm_compute. reflexivity.
  - vm_compute in He. discriminate He.
Defined.

Lemma spectrum_conversions_match_witness :
  exists e ps,
    name e = "Spectrum: blackbody" /\
    parameters_of (heap (final sample_resources)) e = Some ps /\
    length ps = 1%nat.
Proof.
  destruct blackbody_in_table as [e [value [He [Hn [Hf Hc]]]]].
  pose proof (spectrum_conversions_match sample_resources) as H.
  rewrite Forall_forall in H.
  destruct (H e (proj2 (list_elem_of_In _ _) He) value Hf) as [ps [Hps Hlen]].
  exists e, ps. split; [exact Hn|]. split; [exact Hps|].
  rewrite <- Hlen. exact Hc.
Defined.
